(** * First-aid box inventory: tenant isolation and the stock ledger

    A shallow embedding of [app/utils_college.py] and
    [app/routers/first_aid.py].

    - College names, drug codes and messages are [string]s, that is
      byte strings.  [py_strip] and [py_lower] are [str.strip] and
      [str.lower] on the ASCII range and leave every other byte alone;
      text outside ASCII is taken to be caseless, as the Arabic college
      names of the test suite are.
    - Python's truthiness of [Optional[str]] is [truthy]: [None] and the
      empty string are both false.
    - The tables whose rows are fetched by primary key
      ([first_aid_boxes], [first_aid_box_items]) are finite maps from the
      key; the tables searched by another column ([drugs],
      [warehouse_stock], [pharmacy_stock]) and the append-only
      [drug_transactions] are lists of rows, in insertion order.
    - A request handler runs in a small state-and-exception monad over the
      SQLAlchemy session: the unit of work ([pending]), what has been
      committed ([stored]), the count of statements issued so far, and
      what was printed.  Any statement may be refused by the storage
      layer; which ones are is part of the [World] of the request.
    - [require_doc], [get_current_user] and [get_db] are dependencies
      resolved before a handler runs: a handler takes the users they
      return as arguments and starts on a fresh session. *)

From Stdlib Require Import ZArith Bool List Ascii String Lia.
From stdpp Require Import base option list gmap strings pretty.

Local Open Scope string_scope.
Local Open Scope Z_scope.

(** ** Python values *)

Module Py.

(** [bool(s)] for [s : Optional[str]]. *)
Definition truthy (s : option string) : bool :=
  match s with
  | Some (String _ _) => true
  | _ => false
  end.

(** [c.isspace()] on the ASCII range: TAB..CR, FS..US and the blank. *)
Definition is_space (c : ascii) : bool :=
  let n := nat_of_ascii c in
  ((9 <=? n)%nat && (n <=? 13)%nat)
  || ((28 <=? n)%nat && (n <=? 32)%nat).

Fixpoint lstrip (s : string) : string :=
  match s with
  | String c s' => if is_space c then lstrip s' else s
  | EmptyString => EmptyString
  end.

Definition rstrip (s : string) : string :=
  String.rev (lstrip (String.rev s)).

(** [s.strip()] *)
Definition py_strip (s : string) : string := rstrip (lstrip s).

Definition lower_char (c : ascii) : ascii :=
  let n := nat_of_ascii c in
  if ((65 <=? n)%nat && (n <=? 90)%nat) then ascii_of_nat (n + 32) else c.

(** [s.lower()] *)
Fixpoint py_lower (s : string) : string :=
  match s with
  | String c s' => String (lower_char c) (py_lower s')
  | EmptyString => EmptyString
  end.

End Py.
Export Py.

(** ** [app/utils_college.py] *)

(** The columns of [User] that the isolation helpers read. *)
Record User := {
  user_id : Z;
  is_admin : bool;
  is_doc : bool;
  doctor_college : option string;
  is_college_admin : bool;
  college_admin_college : option string;
  is_hod : bool;
  hod_college : option string;
}.

Definition get_user_college (user : option User) : option string :=
  match user with
  | None => None
  | Some user =>
    if is_admin user then None
    else if is_doc user && truthy (doctor_college user)
    then doctor_college user
    else if is_college_admin user && truthy (college_admin_college user)
    then college_admin_college user
    else if is_hod user && truthy (hod_college user)
    then hod_college user
    else None
  end.

(** The role columns of a user: all that [get_user_college] reads. *)
Definition role_columns (u : User) :=
  (is_admin u, is_doc u, doctor_college u, is_college_admin u,
   college_admin_college u, is_hod u, hod_college u).

(** [a.strip().lower() == b.strip().lower()] *)
Definition same_college (a b : string) : bool :=
  String.eqb (py_lower (py_strip a)) (py_lower (py_strip b)).

(** The string held by an [Optional[str]] that has been tested truthy. *)
Definition str (s : option string) : string := default "" s.

Definition verify_college_access (user : option User) (college : option string)
  : bool :=
  match user with
  | None => false
  | Some user =>
    if negb (truthy college) then false
    else if is_admin user then true
    else
      let user_college := get_user_college (Some user) in
      if negb (truthy user_college) then false
      else same_college (str user_college) (str college)
  end.

(** One role branch of [validate_college_assignment]: the role's own
    college must be set and must match the requested one. *)
Definition role_access (role : string) (own : option string)
    (college : string) : bool * string :=
  if negb (truthy own)
  then (false, role +:+ " has no college assigned")
  else if negb (same_college (str own) college)
  then (false, role +:+ " can only access their assigned college: " +:+ str own)
  else (true, role +:+ " has access to college: " +:+ college).

Definition validate_college_assignment (user : option User)
    (college : option string) : bool * string :=
  match user with
  | None => (false, "User not found")
  | Some user =>
    if negb (truthy college) then (false, "College not specified")
    else if is_admin user then (true, "Admin has full access to all colleges")
    else if is_doc user
    then role_access "Doctor" (doctor_college user) (str college)
    else if is_college_admin user
    then role_access "College admin" (college_admin_college user) (str college)
    else if is_hod user
    then role_access "HOD" (hod_college user) (str college)
    else (false, "User has no recognized role with college access")
  end.

(** *** Exceptions *)

(** What a handler can raise: FastAPI's [HTTPException], or whatever the
    session or the driver raises on a statement, with its text. *)
Inductive exn :=
| HTTPException (status_code : Z) (detail : string)
| StorageError (text : string).

(** [str(ex)]; Starlette prints an [HTTPException] as status, colon,
    detail. *)
Definition str_exn (ex : exn) : string :=
  match ex with
  | HTTPException status_code detail => pretty status_code +:+ ": " +:+ detail
  | StorageError text => text
  end.

Inductive res (A : Type) :=
| Ok (a : A)
| Raise (ex : exn).
Arguments Ok {A} a.
Arguments Raise {A} ex.

Definition HTTP_400_BAD_REQUEST : Z := 400.
Definition HTTP_401_UNAUTHORIZED : Z := 401.
Definition HTTP_403_FORBIDDEN : Z := 403.

Definition prevent_cross_college_access (user : option User)
    (target_college : option string) : res unit :=
  match user with
  | None => Raise (HTTPException HTTP_401_UNAUTHORIZED "Authentication required")
  | Some _ =>
    if negb (truthy target_college)
    then Raise (HTTPException HTTP_400_BAD_REQUEST "College not specified")
    else
      let '(is_valid, message) :=
        validate_college_assignment user target_college in
      if negb is_valid
      then Raise (HTTPException HTTP_403_FORBIDDEN message)
      else Ok tt
  end.

(** *** Queries *)

(** A query under construction: the [WHERE] conjuncts added so far. *)
Definition Query (A : Type) : Type := list (A -> bool).

(** What [hasattr(model_class, 'college_id')] and
    [hasattr(model_class, 'college')] find: the column, when the mapped
    class has it. *)
Record Model (A : Type) := {
  attr_college_id : option (A -> option string);
  attr_college : option (A -> option string);
}.
Arguments attr_college_id {A} _.
Arguments attr_college {A} _.

(** [column == value] in a [WHERE] clause: a [NULL] column matches
    nothing. *)
Definition sql_eq (column value : option string) : bool :=
  match column, value with
  | Some a, Some b => String.eqb a b
  | _, _ => false
  end.

Definition filter_by_college {A : Type} (query : Query A)
    (model_class : Model A) (user : option User) : Query A :=
  match user with
  | None => query
  | Some u =>
    if is_admin u then query
    else
      let user_college := get_user_college user in
      if negb (truthy user_college) then query
      else
        match attr_college_id model_class, attr_college model_class with
        | None, None => query
        | Some college_id, _ =>
          (query ++ [fun row => sql_eq (college_id row) user_college])%list
        | None, Some college =>
          (query ++ [fun row => sql_eq (college row) user_college])%list
        end
  end.

(** ** The store *)

Record FirstAidBox := {
  box_name : string;
  location : string;
  box_college_id : option string;
  created_by_user_id : Z;
  last_reviewed_at : option Z;
}.

Record FirstAidBoxItem := {
  item_box_id : Z;
  item_college_id : option string;
  drug_name : string;
  item_drug_code : option string;
  quantity : Z;
  item_unit : string;
  expiry_date : option Z;
  notes : option string;
}.

(** The two columns of [drugs] that the router reads. *)
Record Drug := {
  drug_id : Z;
  drug_code : option string;
}.

(** A row of [warehouse_stock] or of [pharmacy_stock]: the columns the
    router names.  Nothing in the router makes [drug_id] unique in these
    tables, so a table is a list of rows and may hold several for one
    drug. *)
Record StockRow := {
  stock_drug_id : Z;
  balance_qty : Z;
  college : option string;
  last_updated : option Z;
}.

Record DrugTransaction := {
  tx_drug_id : Z;
  tx_drug_code : string;
  transaction_type : string;
  quantity_change : Z;
  source : string;
  destination : string;
  tx_notes : string;
  created_by : Z;
}.

Record DB := {
  first_aid_boxes : gmap Z FirstAidBox;
  first_aid_box_items : gmap Z FirstAidBoxItem;
  drugs : list Drug;
  warehouse_stock : list StockRow;
  pharmacy_stock : list StockRow;
  drug_transactions : list DrugTransaction;
}.

Definition set_boxes (f : gmap Z FirstAidBox -> gmap Z FirstAidBox) (db : DB) : DB :=
  {| first_aid_boxes := f (first_aid_boxes db);
     first_aid_box_items := first_aid_box_items db;
     drugs := drugs db;
     warehouse_stock := warehouse_stock db;
     pharmacy_stock := pharmacy_stock db;
     drug_transactions := drug_transactions db |}.

Definition set_items (f : gmap Z FirstAidBoxItem -> gmap Z FirstAidBoxItem)
    (db : DB) : DB :=
  {| first_aid_boxes := first_aid_boxes db;
     first_aid_box_items := f (first_aid_box_items db);
     drugs := drugs db;
     warehouse_stock := warehouse_stock db;
     pharmacy_stock := pharmacy_stock db;
     drug_transactions := drug_transactions db |}.

Definition set_warehouse (f : list StockRow -> list StockRow) (db : DB) : DB :=
  {| first_aid_boxes := first_aid_boxes db;
     first_aid_box_items := first_aid_box_items db;
     drugs := drugs db;
     warehouse_stock := f (warehouse_stock db);
     pharmacy_stock := pharmacy_stock db;
     drug_transactions := drug_transactions db |}.

Definition set_pharmacy (f : list StockRow -> list StockRow) (db : DB) : DB :=
  {| first_aid_boxes := first_aid_boxes db;
     first_aid_box_items := first_aid_box_items db;
     drugs := drugs db;
     warehouse_stock := warehouse_stock db;
     pharmacy_stock := f (pharmacy_stock db);
     drug_transactions := drug_transactions db |}.

Definition set_transactions
    (f : list DrugTransaction -> list DrugTransaction) (db : DB) : DB :=
  {| first_aid_boxes := first_aid_boxes db;
     first_aid_box_items := first_aid_box_items db;
     drugs := drugs db;
     warehouse_stock := warehouse_stock db;
     pharmacy_stock := pharmacy_stock db;
     drug_transactions := f (drug_transactions db) |}.

(** *** The SQL of the router, as functions on the tables *)

Module SQL.

(** [SELECT id FROM drugs WHERE drug_code = :code], [fetchone()] *)
Definition select_drug (code : string) (rows : list Drug) : option Z :=
  drug_id <$> List.find (fun d => sql_eq (drug_code d) (Some code)) rows.

(** [SELECT id FROM <stock> WHERE drug_id = :did], [fetchone()] *)
Definition select_stock (did : Z) (rows : list StockRow) : option StockRow :=
  List.find (fun r => stock_drug_id r =? did) rows.

(** [UPDATE <stock> SET balance_qty = balance_qty - :qty, college = :college,
    last_updated = CURRENT_TIMESTAMP WHERE drug_id = :did] *)
Definition update_deduct (did qty : Z) (college_ : option string) (ts : Z)
    (rows : list StockRow) : list StockRow :=
  List.map (fun r =>
    if stock_drug_id r =? did
    then {| stock_drug_id := stock_drug_id r;
            balance_qty := balance_qty r - qty;
            college := college_;
            last_updated := Some ts |}
    else r) rows.

(** [INSERT INTO <stock> (drug_id, balance_qty, college) VALUES (:did, :qty,
    :college)]; [last_updated] is not named and is left unset. *)
Definition insert_stock (did qty : Z) (college_ : option string)
    (rows : list StockRow) : list StockRow :=
  (rows ++ [ {| stock_drug_id := did;
               balance_qty := qty;
               college := college_;
               last_updated := None |} ])%list.

(** [UPDATE <stock> SET balance_qty = balance_qty + :qty,
    last_updated = CURRENT_TIMESTAMP WHERE drug_id = :did] *)
Definition update_restore (did qty : Z) (ts : Z)
    (rows : list StockRow) : list StockRow :=
  List.map (fun r =>
    if stock_drug_id r =? did
    then {| stock_drug_id := stock_drug_id r;
            balance_qty := balance_qty r + qty;
            college := college r;
            last_updated := Some ts |}
    else r) rows.

(** [COALESCE(ps.balance_qty, 0) AS available_quantity], as the add-item
    form reads a drug's balance: no row counts as zero. *)
Definition available_quantity (did : Z) (rows : list StockRow) : Z :=
  default 0 (balance_qty <$> select_stock did rows).

(** The [balance_qty] of every row held for a drug. *)
Definition balances (did : Z) (rows : list StockRow) : list Z :=
  List.map balance_qty (List.filter (fun r => stock_drug_id r =? did) rows).

End SQL.
Export SQL.

(** ** The request monad *)

(** What [get_drug_stock(drug_code)] of [excel_data_reference] hands back
    to the stock check of [add_item].  [LookupRaises]: the import or the
    call raises (and likewise a ['stock_qty'] that does not compare with
    an [int], which raises inside the same [try]); [LookupNothing]: [None]
    or an empty dict; [LookupRow q]: a dict, with its ['stock_qty'] entry
    when it has one. *)
Inductive StockLookup :=
| LookupRaises
| LookupNothing
| LookupRow (stock_qty : option Z).

(** What a request finds around it: which statements the storage layer
    refuses (numbered from 0 in the order the handler issues them, with
    the text of the exception), the stock sheet behind [get_drug_stock]
    (the module [excel_data_reference] lives outside the [app] package,
    so its answer is taken as given), the clock, and
    [datetime.strptime(_, "%Y-%m-%d").date()], which is [None] where
    Python raises. *)
Record World := {
  raises : nat -> option string;
  get_drug_stock : string -> StockLookup;
  now : Z;
  today : Z;
  strptime : string -> option Z;
}.

(** The SQLAlchemy session of one request: the database as the open
    transaction sees it ([pending]), the database as last committed
    ([stored]), the number of statements issued so far, and the lines
    printed.  When the request ends the session is closed and what is
    pending is dropped, so [stored] is what the request leaves behind. *)
Record Session := {
  pending : DB;
  stored : DB;
  issued : nat;
  stdout : list string;
}.

Definition M (A : Type) : Type := World -> Session -> res A * Session.

Module Monad.

#[global] Instance M_ret : MRet M := fun A a _ s => (Ok a, s).

#[global] Instance M_bind : MBind M := fun A B k m w s =>
  match m w s with
  | (Ok a, s') => k a w s'
  | (Raise ex, s') => (Raise ex, s')
  end.

Definition raise {A : Type} (ex : exn) : M A := fun _ s => (Raise ex, s).

Definition lift {A : Type} (r : res A) : M A := fun _ s => (r, s).

(** [try: m  except Exception as ex: handler ex] *)
Definition try_except {A : Type} (m : M A) (handler : exn -> M A) : M A :=
  fun w s =>
    match m w s with
    | (Ok a, s') => (Ok a, s')
    | (Raise ex, s') => handler ex w s'
    end.

Definition ask {A : Type} (f : World -> A) : M A := fun w s => (Ok (f w), s).

Definition tick (s : Session) : Session :=
  {| pending := pending s; stored := stored s;
     issued := S (issued s); stdout := stdout s |}.

(** One statement sent to the database inside the current transaction. *)
Definition execute {A : Type} (stmt : DB -> A * DB) : M A := fun w s =>
  match raises w (issued s) with
  | Some text => (Raise (StorageError text), tick s)
  | None =>
    let '(a, db) := stmt (pending s) in
    (Ok a, {| pending := db; stored := stored s;
              issued := S (issued s); stdout := stdout s |})
  end.

(** A change to a mapped object, kept in the unit of work until flushed. *)
Definition orm {A : Type} (change : DB -> A * DB) : M A := fun _ s =>
  let '(a, db) := change (pending s) in
  (Ok a, {| pending := db; stored := stored s;
            issued := issued s; stdout := stdout s |}).

(** [db.commit()] *)
Definition commit : M unit := fun w s =>
  match raises w (issued s) with
  | Some text => (Raise (StorageError text), tick s)
  | None =>
    (Ok tt, {| pending := pending s; stored := pending s;
               issued := S (issued s); stdout := stdout s |})
  end.

(** [db.rollback()] *)
Definition rollback : M unit := fun _ s =>
  (Ok tt, {| pending := stored s; stored := stored s;
             issued := issued s; stdout := stdout s |}).

Definition print (line : string) : M unit := fun _ s =>
  (Ok tt, {| pending := pending s; stored := stored s;
             issued := issued s; stdout := (stdout s ++ [line])%list |}).

(** A request gets a fresh session on the database as it stands
    ([get_db]). *)
Definition open (db : DB) : Session :=
  {| pending := db; stored := db; issued := 0; stdout := [] |}.

Definition serve {A : Type} (handler : M A) (w : World) (db : DB)
  : res A * Session := handler w (open db).

End Monad.
Export Monad.

(** ** [app/routers/first_aid.py] *)

(** What a handler passes to its template.  The request object and the QR
    image belong to the rendering layer and are left out. *)
Inductive Context :=
| PublicBoxContext (box : Z * FirstAidBox) (items : list (Z * FirstAidBoxItem))
    (today_ : Z)
| BoxDetailContext (box : Z * FirstAidBox) (items : list (Z * FirstAidBoxItem))
    (today_ : Z) (msg : option string)
| BoxesContext (boxes : list (Z * FirstAidBox)) (box_count : option nat).

Inductive Response :=
| RedirectResponse (url : string) (status_code : Z)
| TemplateResponse (name : string) (context : Context).

(** The mapped class [FirstAidBox], as [filter_by_college] inspects it. *)
Definition FirstAidBox_model : Model FirstAidBox :=
  {| attr_college_id := Some box_college_id; attr_college := None |}.

(** [db.query(FirstAidBox).filter(FirstAidBox.id == box_id).first()] *)
Definition query_box (box_id : Z) : M (option FirstAidBox) :=
  execute (fun db => (first_aid_boxes db !! box_id, db)).

(** [query.all()] on a query over [FirstAidBox] *)
Definition query_all (query : Query FirstAidBox) : M (list (Z * FirstAidBox)) :=
  execute (fun db =>
    (List.filter (fun row => forallb (fun cond => cond row.2) query)
       (map_to_list (first_aid_boxes db)), db)).

(** [box.items], loaded when the response is built *)
Definition box_items (box_id : Z) : M (list (Z * FirstAidBoxItem)) :=
  execute (fun db =>
    (List.filter (fun row => item_box_id row.2 =? box_id)
       (map_to_list (first_aid_box_items db)), db)).

(** The check that every box handler makes once the box is loaded:
    [if box.college_id: prevent_cross_college_access(current_user,
    box.college_id)]. *)
Definition check_box_college (current_user : option User) (box : FirstAidBox)
  : res unit :=
  if truthy (box_college_id box)
  then prevent_cross_college_access current_user (box_college_id box)
  else Ok tt.

Definition box_not_found : exn := HTTPException 404 "الصندوق غير موجود".

Definition box_public_detail (box_id : Z) : M Response :=
  box ← query_box box_id;
  match box with
  | None => raise box_not_found
  | Some box =>
    items ← box_items box_id;
    today_ ← ask today;
    mret (TemplateResponse "first_aid/box_public.html"
            (PublicBoxContext (box_id, box) items today_))
  end.

Definition fa_index (current_user : option User) : M Response :=
  let user_college := get_user_college current_user in
  let query := filter_by_college [] FirstAidBox_model current_user in
  boxes ← query_all query;
  mret (TemplateResponse "first_aid/index.html"
          (BoxesContext boxes (Some (length boxes)))).

Definition boxes_list (current_user : option User) : M Response :=
  let user_college := get_user_college current_user in
  let query := filter_by_college [] FirstAidBox_model current_user in
  boxes ← query_all query;
  mret (TemplateResponse "first_aid/boxes_list.html"
          (BoxesContext boxes None)).

Definition box_detail (box_id : Z) (msg : option string)
    (current_user : option User) : M Response :=
  box ← query_box box_id;
  match box with
  | None => raise box_not_found
  | Some box =>
    lift (check_box_college current_user box);;
    now_ ← ask now;
    let box :=
      {| box_name := box_name box; location := location box;
         box_college_id := box_college_id box;
         created_by_user_id := created_by_user_id box;
         last_reviewed_at := Some now_ |} in
    orm (fun db => (tt, set_boxes (insert box_id box) db));;
    commit;;
    items ← box_items box_id;
    today_ ← ask today;
    mret (TemplateResponse "first_aid/box_detail.html"
            (BoxDetailContext (box_id, box) items today_ msg))
  end.

Definition boxes_create (user : User) (current_user : option User)
    (box_name_ location_ : string) : M Response :=
  try_except
    (let user_college := get_user_college current_user in
     if negb (truthy user_college)
     then raise (HTTPException 403 "لا يمكن إنشاء صندوق بدون تخصيص كلية")
     else
       let new_box :=
         {| box_name := box_name_; location := location_;
            box_college_id := user_college;
            created_by_user_id := user_id user;
            last_reviewed_at := None |} in
       new_id ← orm (fun db =>
         let new_id := fresh (dom (first_aid_boxes db)) in
         (new_id, set_boxes (insert new_id new_box) db));
       commit;;
       execute (fun db => (tt, db));;
       mret (RedirectResponse ("/first-aid/boxes/" +:+ pretty new_id) 303))
    (fun ex => rollback;; raise (HTTPException 400 (str_exn ex))).

(** The redirects of [add_item] and [delete_item]: back to the form with
    an error, or to the box with a message. *)
Definition add_item_url (box_id : Z) (error : string) : string :=
  "/first-aid/boxes/" +:+ pretty box_id +:+ "/add-item?error=" +:+ error.

Definition item_added (box_id : Z) : Response :=
  RedirectResponse ("/first-aid/boxes/" +:+ pretty box_id
                    +:+ "?msg=item_added_stock_deducted") 303.

Definition item_deleted (box_id : Z) : Response :=
  RedirectResponse ("/first-aid/boxes/" +:+ pretty box_id
                    +:+ "?msg=item_deleted_stock_restored") 303.

(** The comparison of the stock check of [add_item]: the recorded
    quantity, when there is one and the request exceeds it. *)
Definition exceeds_stock (drug_stock : StockLookup) (quantity_ : Z)
  : option Z :=
  match drug_stock with
  | LookupRaises => None
  | LookupNothing => None
  | LookupRow stock_qty =>
    let available := default 0 stock_qty in
    if quantity_ >? available then Some available else None
  end.

(** The stock check of [add_item] (the [try] of lines 264-283). *)
Definition stock_check (drug_code_ : string) (quantity_ : Z) : M (option Z) :=
  drug_stock ← ask (fun w => get_drug_stock w drug_code_);
  mret (exceeds_stock drug_stock quantity_).

(** The key that the database gives the next row of
    [first_aid_box_items]: one not yet in use. *)
Definition new_item_id (db : DB) : Z := fresh (dom (first_aid_box_items db)).

(** The row that [add_item] writes to [drug_transactions]. *)
Definition deduct_transaction (did : Z) (drug_code_ : string) (quantity_ : Z)
    (box_id : Z) (box : FirstAidBox) (user : User) : DrugTransaction :=
  {| tx_drug_id := did;
     tx_drug_code := drug_code_;
     transaction_type := "warehouse_to_box";
     quantity_change := - quantity_;
     source := "warehouse";
     destination := "box_" +:+ pretty box_id;
     tx_notes := "إضافة للصندوق: " +:+ box_name box;
     created_by := user_id user |}.

(** The stock movement of [add_item] (the body of the [try] of lines
    308-375). *)
Definition deduct_stock (box_id : Z) (box : FirstAidBox) (user : User)
    (user_college : option string) (drug_code_ : string) (quantity_ : Z)
  : M unit :=
  drug_row ← execute (fun db => (select_drug drug_code_ (drugs db), db));
  match drug_row with
  | None => mret tt
  | Some did =>
    ts ← ask now;
    existing_warehouse ← execute (fun db =>
      (select_stock did (warehouse_stock db), db));
    match existing_warehouse with
    | Some _ => execute (fun db =>
        (tt, set_warehouse (update_deduct did quantity_ user_college ts) db))
    | None => execute (fun db =>
        (tt, set_warehouse (insert_stock did (- quantity_) user_college) db))
    end;;
    existing_pharmacy ← execute (fun db =>
      (select_stock did (pharmacy_stock db), db));
    match existing_pharmacy with
    | Some _ => execute (fun db =>
        (tt, set_pharmacy (update_deduct did quantity_ user_college ts) db))
    | None => execute (fun db =>
        (tt, set_pharmacy (insert_stock did (- quantity_) user_college) db))
    end;;
    execute (fun db =>
      (tt, set_transactions (fun rows =>
        (rows ++ [deduct_transaction did drug_code_ quantity_ box_id box user]
        )%list) db));;
    commit;;
    print ("✓ تم خصم " +:+ pretty quantity_ +:+ " من الرصيد")
  end.

Definition add_item (box_id : Z) (user : User) (current_user : option User)
    (drug_name_ : string) (drug_code_ : option string) (quantity_ : Z)
    (unit_ : string) (expiry_date_ : option string) (notes_ : option string)
  : M Response :=
  try_except
    (let user_college := get_user_college current_user in
     if negb (truthy user_college)
     then raise (HTTPException 403 "لا يمكن إضافة دواء بدون تخصيص كلية")
     else
       box ← query_box box_id;
       match box with
       | None => raise box_not_found
       | Some box =>
         lift (check_box_college current_user box);;
         over ← (if truthy drug_code_
                 then stock_check (str drug_code_) quantity_
                 else mret None);
         match over with
         | Some available =>
           let error_msg :=
             "الكمية المطلوبة (" +:+ pretty quantity_
             +:+ ") تتجاوز المتاح في المخزون (" +:+ pretty available
             +:+ "). الرجاء اختيار كمية أقل." in
           mret (RedirectResponse (add_item_url box_id error_msg) 303)
         | None =>
           expiry_date_obj ←
             (if truthy expiry_date_
              then ask (fun w => strptime w (str expiry_date_))
              else mret None);
           let new_item :=
             {| item_box_id := box_id;
                item_college_id := user_college;
                drug_name := drug_name_;
                item_drug_code := drug_code_;
                quantity := quantity_;
                item_unit := unit_;
                expiry_date := expiry_date_obj;
                notes := notes_ |} in
           orm (fun db =>
             (tt, set_items (insert (new_item_id db) new_item) db));;
           commit;;
           execute (fun db => (tt, db));;
           (if truthy drug_code_
            then try_except
                   (deduct_stock box_id box user user_college
                      (str drug_code_) quantity_)
                   (fun e => print ("Warning: Failed to update stock: "
                                    +:+ str_exn e))
            else mret tt);;
           mret (item_added box_id)
         end
       end)
    (fun ex =>
       rollback;;
       mret (RedirectResponse (add_item_url box_id (str_exn ex)) 303)).

(** The row that [delete_item] writes to [drug_transactions]. *)
Definition return_transaction (did : Z) (drug_code_ : string) (quantity_ : Z)
    (box_id : Z) (user : User) : DrugTransaction :=
  {| tx_drug_id := did;
     tx_drug_code := drug_code_;
     transaction_type := "box_return";
     quantity_change := quantity_;
     source := "box_" +:+ pretty box_id;
     destination := "warehouse";
     tx_notes := "إرجاع من صندوق - حذف عنصر";
     created_by := user_id user |}.

(** The stock movement of [delete_item] (the body of the [try] of lines
    427-469). *)
Definition restore_stock (box_id : Z) (user : User) (drug_code_ : string)
    (quantity_ : Z) : M unit :=
  drug_row ← execute (fun db => (select_drug drug_code_ (drugs db), db));
  match drug_row with
  | None => mret tt
  | Some did =>
    ts ← ask now;
    execute (fun db =>
      (tt, set_warehouse (update_restore did quantity_ ts) db));;
    execute (fun db =>
      (tt, set_pharmacy (update_restore did quantity_ ts) db));;
    execute (fun db =>
      (tt, set_transactions (fun rows =>
        (rows ++ [return_transaction did drug_code_ quantity_ box_id user]
        )%list) db));;
    commit
  end.

(** [db.query(FirstAidBoxItem).filter(FirstAidBoxItem.id == item_id,
    FirstAidBoxItem.box_id == box_id).first()] *)
Definition query_item (item_id box_id : Z) : M (option FirstAidBoxItem) :=
  execute (fun db =>
    (match first_aid_box_items db !! item_id with
     | Some item => if item_box_id item =? box_id then Some item else None
     | None => None
     end, db)).

Definition delete_item (box_id item_id : Z) (user : User)
    (current_user : option User) : M Response :=
  try_except
    (box ← query_box box_id;
     match box with
     | None => raise box_not_found
     | Some box =>
       lift (check_box_college current_user box);;
       item ← query_item item_id box_id;
       match item with
       | None => raise (HTTPException 404 "العنصر غير موجود")
       | Some item =>
         let drug_code_ := item_drug_code item in
         let quantity_ := quantity item in
         orm (fun db => (tt, set_items (delete item_id) db));;
         commit;;
         (if truthy drug_code_
          then try_except
                 (restore_stock box_id user (str drug_code_) quantity_)
                 (fun e => print ("Warning: Failed to restore stock on delete: "
                                  +:+ str_exn e))
          else mret tt);;
         mret (item_deleted box_id)
       end
     end)
    (fun ex => rollback;; raise (HTTPException 400 (str_exn ex))).

(** ** Vocabulary of the statements *)

(** What the pair of statements on a stock table in [add_item] does to it:
    the rows of the drug are updated when there is one, and a row is
    inserted otherwise. *)
Definition deducted (did qty : Z) (college_ : option string) (ts : Z)
    (rows : list StockRow) : list StockRow :=
  match select_stock did rows with
  | Some _ => update_deduct did qty college_ ts rows
  | None => insert_stock did (- qty) college_ rows
  end.

(** The expiry date that [add_item] stores. *)
Definition parsed_expiry (w : World) (expiry_date_ : option string)
  : option Z :=
  if truthy expiry_date_ then strptime w (str expiry_date_) else None.

(** The row that [add_item] stores in [first_aid_box_items]. *)
Definition stored_item (w : World) (box_id : Z) (current_user : option User)
    (drug_name_ : string) (drug_code_ : option string) (quantity_ : Z)
    (unit_ : string) (expiry_date_ notes_ : option string) : FirstAidBoxItem :=
  {| item_box_id := box_id;
     item_college_id := get_user_college current_user;
     drug_name := drug_name_;
     item_drug_code := drug_code_;
     quantity := quantity_;
     item_unit := unit_;
     expiry_date := parsed_expiry w expiry_date_;
     notes := notes_ |}.

(** The calls of [add_item] that reach the point where the item is
    stored: the caller has a college, the box exists, the college check
    passes, and the stock check does not turn the request back. *)
Definition add_item_admitted (w : World) (db : DB) (box_id : Z)
    (current_user : option User) (drug_code_ : option string)
    (quantity_ : Z) (box : FirstAidBox) : Prop :=
  truthy (get_user_college current_user) = true
  /\ first_aid_boxes db !! box_id = Some box
  /\ check_box_college current_user box = Ok tt
  /\ (truthy drug_code_ = true ->
      exceeds_stock (get_drug_stock w (str drug_code_)) quantity_ = None).

(** The calls of [delete_item] that reach the point where the item is
    deleted: the box exists, the college check passes, and the item is in
    that box. *)
Definition delete_item_admitted (db : DB) (box_id item_id : Z)
    (current_user : option User) (box : FirstAidBox)
    (item : FirstAidBoxItem) : Prop :=
  first_aid_boxes db !! box_id = Some box
  /\ check_box_college current_user box = Ok tt
  /\ first_aid_box_items db !! item_id = Some item
  /\ item_box_id item = box_id.

(** [box.last_reviewed_at = datetime.now()] on the row [box_id]. *)
Definition reviewed (box_id : Z) (box : FirstAidBox) (ts : Z) (db : DB) : DB :=
  set_boxes
    (insert box_id
       {| box_name := box_name box; location := location box;
          box_college_id := box_college_id box;
          created_by_user_id := created_by_user_id box;
          last_reviewed_at := Some ts |}) db.

(** ** The rest of [app/utils_college.py] *)

Module Normalize.




End Normalize.
Export Normalize.

(** [list(set(accessible))] keeps one copy of each college, in an order
    Python does not fix; here it is the order of [elements]. *)
Definition get_all_accessible_colleges (user : option User) : list string :=
  match user with
  | None => []
  | Some user =>
    if is_admin user then []
    else
      let accessible := [] in
      let accessible :=
        if is_doc user && truthy (doctor_college user)
        then (accessible ++ [str (doctor_college user)])%list
        else accessible in
      let accessible :=
        if is_college_admin user && truthy (college_admin_college user)
        then (accessible ++ [str (college_admin_college user)])%list
        else accessible in
      let accessible :=
        if is_hod user && truthy (hod_college user)
        then (accessible ++ [str (hod_college user)])%list
        else accessible in
      elements (list_to_set accessible : gset string)
  end.

(** ** More vocabulary *)



(** The database once the stock movement of [add_item] is committed on
    top of [db]. *)
Definition with_movement (did qty : Z) (college_ : option string) (ts : Z)
    (record : DrugTransaction) (db : DB) : DB :=
  set_transactions (fun rows => (rows ++ [record])%list)
    (set_pharmacy (deducted did qty college_ ts)
       (set_warehouse (deducted did qty college_ ts) db)).

(** The database once the stock movement of [delete_item] is committed on
    top of [db]. *)
Definition with_return (did qty : Z) (ts : Z) (record : DrugTransaction)
    (db : DB) : DB :=
  set_transactions (fun rows => (rows ++ [record])%list)
    (set_pharmacy (update_restore did qty ts)
       (set_warehouse (update_restore did qty ts) db)).

(** The key that the database gives the next row of [first_aid_boxes]. *)
Definition new_box_id (db : DB) : Z := fresh (dom (first_aid_boxes db)).

(** The row that [boxes_create] stores. *)
Definition created_box (user : User) (current_user : option User)
    (box_name_ location_ : string) : FirstAidBox :=
  {| box_name := box_name_; location := location_;
     box_college_id := get_user_college current_user;
     created_by_user_id := user_id user;
     last_reviewed_at := None |}.

(** ** [app/utils_medicine_college.py]

    The helpers that read and write the [college_id] column of [drugs].
    They take the session as an argument; here it is the [drugs] table as
    the open transaction sees it, the table as last committed, the number
    of statements sent so far and the lines printed.  [refused] tells which
    statements the storage layer refuses. *)

Module Medicine.

Record Row := {
  id : Z;
  college_id : option string;
}.

Record Store := {
  table : list Row;
  committed : list Row;
  sent : nat;
  printed : list string;
}.

(** [SELECT college_id FROM drugs WHERE id = :id], [.scalar()]: [None]
    when there is no row and when the column is [NULL]. *)
Definition select_college (medicine_id : Z) (rows : list Row)
  : option string :=
  match List.find (fun r => id r =? medicine_id) rows with
  | Some r => college_id r
  | None => None
  end.


Definition sent_one (s : Store) : Store :=
  {| table := table s; committed := committed s;
     sent := S (sent s); printed := printed s |}.

Definition verify_medicine_access (refused : nat -> option string)
    (db : Store) (medicine_id : Z) (college_ : string) : bool * Store :=
  match refused (sent db) with
  | Some _ => (false, sent_one db)
  | None =>
    let medicine_college := select_college medicine_id (table db) in
    (match medicine_college with
     | None => true
     | Some c => String.eqb c college_
     end, sent_one db)
  end.

Definition prevent_medicine_cross_access (refused : nat -> option string)
    (db : Store) (medicine_id : Z) (college_ : string) : res unit * Store :=
  let '(allowed, db) := verify_medicine_access refused db medicine_id college_ in
  if negb allowed
  then (Raise (HTTPException 403
                 "آسف، لا يمكنك الوصول إلى هذا الدواء. قد يكون من كلية أخرى."),
        db)
  else (Ok tt, db).


Definition start (rows : list Row) : Store :=
  {| table := rows; committed := rows; sent := 0; printed := [] |}.

End Medicine.

(** ** A small installation

    Two colleges with one box each and one catalogued drug, of which the
    pharmacy holds 15 units; used to exercise the statements below. *)

Module Scenario.

Definition doctor_a : User :=
  {| user_id := 1; is_admin := false;
     is_doc := true; doctor_college := Some "College A";
     is_college_admin := false; college_admin_college := None;
     is_hod := false; hod_college := None |}.

Definition doctor_b : User :=
  {| user_id := 2; is_admin := false;
     is_doc := true; doctor_college := Some "College B";
     is_college_admin := false; college_admin_college := None;
     is_hod := false; hod_college := None |}.

Definition box1 : FirstAidBox :=
  {| box_name := "B1"; location := "Lab";
     box_college_id := Some "College A";
     created_by_user_id := 1; last_reviewed_at := None |}.

Definition box2 : FirstAidBox :=
  {| box_name := "B2"; location := "Gym";
     box_college_id := Some "College B";
     created_by_user_id := 2; last_reviewed_at := None |}.

Definition db0 : DB :=
  {| first_aid_boxes := {[ 1 := box1; 2 := box2 ]};
     first_aid_box_items := ∅;
     drugs := [ {| drug_id := 7; drug_code := Some "D1" |} ];
     warehouse_stock :=
       [ {| stock_drug_id := 7; balance_qty := 40;
            college := Some "College A"; last_updated := None |} ];
     pharmacy_stock :=
       [ {| stock_drug_id := 7; balance_qty := 15;
            college := Some "College A"; last_updated := None |} ];
     drug_transactions := [] |}.

(** The same installation before any stock row was written. *)
Definition db_empty_stock : DB :=
  {| first_aid_boxes := {[ 1 := box1; 2 := box2 ]};
     first_aid_box_items := ∅;
     drugs := [ {| drug_id := 7; drug_code := Some "D1" |} ];
     warehouse_stock := [];
     pharmacy_stock := [];
     drug_transactions := [] |}.

(** A request during which the storage works and the stock sheet knows
    nothing. *)
Definition calm : World :=
  {| raises := fun _ => None;
     get_drug_stock := fun _ => LookupNothing;
     now := 1000; today := 10; strptime := fun _ => None |}.

(** A request during which the stock sheet reports 5 units of every
    drug. *)
Definition five_in_stock : World :=
  {| raises := fun _ => None;
     get_drug_stock := fun _ => LookupRow (Some 5);
     now := 1000; today := 10; strptime := fun _ => None |}.

(** A request whose statement number [k] is refused by the storage. *)
Definition failing_at (k : nat) : World :=
  {| raises := fun n => if (n =? k)%nat then Some "database is locked" else None;
     get_drug_stock := fun _ => LookupNothing;
     now := 1000; today := 10; strptime := fun _ => None |}.

End Scenario.

(** More of the same installation: a doctor whose college was never
    set but who also administers College A, a box from before colleges
    were recorded, two stored items, and a few rows of [drugs] with their
    college. *)

Module Cases.

Definition doctor_unassigned : User :=
  {| user_id := 3; is_admin := false;
     is_doc := true; doctor_college := None;
     is_college_admin := true; college_admin_college := Some "College A";
     is_hod := false; hod_college := None |}.

Definition admin : User :=
  {| user_id := 9; is_admin := true;
     is_doc := false; doctor_college := None;
     is_college_admin := false; college_admin_college := None;
     is_hod := false; hod_college := None |}.

Definition legacy_box : FirstAidBox :=
  {| box_name := "B0"; location := "Hall";
     box_college_id := None;
     created_by_user_id := 1; last_reviewed_at := None |}.

Definition aspirin : FirstAidBoxItem :=
  {| item_box_id := 1; item_college_id := Some "College A";
     drug_name := "Aspirin"; item_drug_code := Some "D1";
     quantity := 10; item_unit := "عدد";
     expiry_date := None; notes := None |}.

Definition plaster : FirstAidBoxItem :=
  {| item_box_id := 2; item_college_id := Some "College B";
     drug_name := "Plaster"; item_drug_code := None;
     quantity := 3; item_unit := "عدد";
     expiry_date := None; notes := None |}.

(** [Scenario.db0] with a box without college and the two items. *)
Definition db1 : DB :=
  {| first_aid_boxes :=
       {[ 0 := legacy_box; 1 := Scenario.box1; 2 := Scenario.box2 ]};
     first_aid_box_items := {[ 5 := aspirin; 6 := plaster ]};
     drugs := [ {| drug_id := 7; drug_code := Some "D1" |} ];
     warehouse_stock := [];
     pharmacy_stock :=
       [ {| stock_drug_id := 7; balance_qty := 5;
            college := Some "College B"; last_updated := None |};
         {| stock_drug_id := 8; balance_qty := 2;
            college := Some "College B"; last_updated := None |} ];
     drug_transactions := [] |}.

Definition medicines : list Medicine.Row :=
  [ {| Medicine.id := 7; Medicine.college_id := Some "College A" |};
    {| Medicine.id := 8; Medicine.college_id := None |} ].

End Cases.

(** * Properties *)

(** ** Truthiness and college comparison *)

Lemma truthy_Some (s : option string) :
  truthy s = true <-> exists c, s = Some c /\ c <> "".
Proof.
  split.
  - destruct s as [[|a c]|]; simpl; try discriminate.
    intros _. exists (String a c). split; [reflexivity | discriminate].
  - intros (c & -> & Hc). destruct c; [contradiction | reflexivity].
Qed.

Lemma truthy_str (s : option string) : truthy s = true -> s = Some (str s).
Proof. destruct s as [[|a c]|]; simpl; try discriminate; reflexivity. Qed.

Lemma same_college_spec (a b : string) :
  same_college a b = true <-> py_lower (py_strip a) = py_lower (py_strip b).
Proof. unfold same_college. apply String.eqb_eq. Qed.


(** ** The tenant resolver *)

Lemma get_user_college_truthy (user : option User) (c : string) :
  get_user_college user = Some c -> c <> "".
Proof.
  destruct user as [u|]; simpl; [|discriminate].
  destruct (is_admin u); [discriminate|].
  destruct (is_doc u), (doctor_college u) as [[|]|];
  destruct (is_college_admin u), (college_admin_college u) as [[|]|];
  destruct (is_hod u), (hod_college u) as [[|]|];
  simpl; intros [= <-]; discriminate.
Qed.

(** C8.  [get_user_college] is a total function of the user.  An
    administrator resolves to the administrator outcome, which the function
    writes [None]; otherwise the result is the college of the first of
    Doctor, CollegeAdmin, HeadOfDepartment whose flag is set and whose
    college is non-empty; otherwise [None].  A resolved college is never
    empty, and the result depends on the role columns only, so resolving an
    unchanged user again gives the same claim. *)
Theorem get_user_college_priority (u : User) :
  get_user_college None = None
  /\ (is_admin u = true -> get_user_college (Some u) = None)
  /\ (is_admin u = false ->
      is_doc u && truthy (doctor_college u) = true ->
      get_user_college (Some u) = doctor_college u)
  /\ (is_admin u = false ->
      is_doc u && truthy (doctor_college u) = false ->
      is_college_admin u && truthy (college_admin_college u) = true ->
      get_user_college (Some u) = college_admin_college u)
  /\ (is_admin u = false ->
      is_doc u && truthy (doctor_college u) = false ->
      is_college_admin u && truthy (college_admin_college u) = false ->
      is_hod u && truthy (hod_college u) = true ->
      get_user_college (Some u) = hod_college u)
  /\ (is_admin u = false ->
      is_doc u && truthy (doctor_college u) = false ->
      is_college_admin u && truthy (college_admin_college u) = false ->
      is_hod u && truthy (hod_college u) = false ->
      get_user_college (Some u) = None)
  /\ (forall c, get_user_college (Some u) = Some c -> c <> "")
  /\ (exists claim, get_user_college (Some u) = claim
        /\ forall u', role_columns u' = role_columns u ->
             get_user_college (Some u') = claim).
Proof.
  unfold get_user_college.
  repeat split.
  - intros ->. reflexivity.
  - intros -> ->. reflexivity.
  - intros -> -> ->. reflexivity.
  - intros -> -> -> ->. reflexivity.
  - intros -> -> -> ->. reflexivity.
  - intros c. apply (get_user_college_truthy (Some u)).
  - eexists. split; [reflexivity|].
    intros u'. unfold role_columns. intros [= -> -> -> -> -> -> ->].
    reflexivity.
Qed.

(** A doctor who is also a head of department resolves to the doctor's
    college. *)
Lemma get_user_college_priority_witness :
  let u := {| user_id := 7; is_admin := false;
              is_doc := true; doctor_college := Some "Medicine";
              is_college_admin := false; college_admin_college := None;
              is_hod := true; hod_college := Some "Science" |} in
  get_user_college (Some u) = Some "Medicine".
Proof.
  intros u.
  destruct (get_user_college_priority u) as (_ & _ & Hdoc & _).
  apply Hdoc; reflexivity.
Defined.

(** ** The access guard *)

Lemma validate_admin (u : User) (college_ : option string) :
  is_admin u = true -> truthy college_ = true ->
  validate_college_assignment (Some u) college_
  = (true, "Admin has full access to all colleges").
Proof.
  intros Ha Hc. unfold validate_college_assignment. rewrite Hc, Ha.
  reflexivity.
Qed.

Lemma check_box_college_admin (u : User) (box : FirstAidBox) :
  is_admin u = true -> check_box_college (Some u) box = Ok tt.
Proof.
  intros Ha. unfold check_box_college.
  destruct (truthy (box_college_id box)) eqn:Hc; [|reflexivity].
  unfold prevent_cross_college_access.
  rewrite Hc, (validate_admin u _ Ha Hc). reflexivity.
Qed.

(** C7, as stated, fails where the resource has no college: the guard
    functions test the college before they look at the administrator
    flag. *)
Lemma admin_unset_college_counterexample :
  let admin := {| user_id := 1; is_admin := true;
                  is_doc := false; doctor_college := None;
                  is_college_admin := false; college_admin_college := None;
                  is_hod := false; hod_college := None |} in
  verify_college_access (Some admin) None = false
  /\ validate_college_assignment (Some admin) None
     = (false, "College not specified")
  /\ prevent_cross_college_access (Some admin) None
     = Raise (HTTPException 400 "College not specified").
Proof. repeat split. Qed.

(** C7, amended.  For an administrator every check against a resource
    whose college is set allows, whatever that college is:
    [verify_college_access] answers [True], [validate_college_assignment]
    answers valid and [prevent_cross_college_access] returns without
    raising.  When the college is unset the three functions refuse the
    administrator like anybody else; the box handlers do not call the guard
    for a box without college, so their check lets an administrator through
    for every box. *)
Theorem admin_always_allowed (u : User) (college_ : option string)
    (box : FirstAidBox) :
  is_admin u = true ->
  (truthy college_ = true ->
     verify_college_access (Some u) college_ = true
     /\ validate_college_assignment (Some u) college_
        = (true, "Admin has full access to all colleges")
     /\ prevent_cross_college_access (Some u) college_ = Ok tt)
  /\ (truthy college_ = false ->
     verify_college_access (Some u) college_ = false
     /\ validate_college_assignment (Some u) college_
        = (false, "College not specified")
     /\ prevent_cross_college_access (Some u) college_
        = Raise (HTTPException 400 "College not specified"))
  /\ check_box_college (Some u) box = Ok tt.
Proof.
  intros Ha. split; [|split].
  - intros Hc. repeat split.
    + unfold verify_college_access. rewrite Hc, Ha. reflexivity.
    + apply validate_admin; assumption.
    + unfold prevent_cross_college_access.
      rewrite Hc, validate_admin by assumption. reflexivity.
  - intros Hc. repeat split.
    + unfold verify_college_access. rewrite Hc. reflexivity.
    + unfold validate_college_assignment. rewrite Hc. reflexivity.
    + unfold prevent_cross_college_access. rewrite Hc. reflexivity.
  - apply check_box_college_admin, Ha.
Qed.

Lemma admin_always_allowed_witness :
  let admin := {| user_id := 1; is_admin := true;
                  is_doc := false; doctor_college := None;
                  is_college_admin := false; college_admin_college := None;
                  is_hod := false; hod_college := None |} in
  let legacy_box := {| box_name := "B0"; location := "Hall";
                       box_college_id := None; created_by_user_id := 1;
                       last_reviewed_at := None |} in
  prevent_cross_college_access (Some admin) (Some "Medicine") = Ok tt
  /\ check_box_college (Some admin) legacy_box = Ok tt.
Proof.
  intros admin legacy_box.
  destruct (admin_always_allowed admin (Some "Medicine") legacy_box
              eq_refl) as (Hset & _ & Hbox).
  split; [apply Hset; reflexivity | exact Hbox].
Defined.





(** ** Reading a box *)




(** ** Listing boxes *)

Lemma filter_no_condition {A : Type} (rows : list A) :
  List.filter (fun _ => true) rows = rows.
Proof.
  induction rows as [|row rows IH]; simpl; [reflexivity|].
  rewrite IH. reflexivity.
Qed.

Lemma filter_by_college_unassigned {A : Type} (query : Query A)
    (model_class : Model A) (u : User) :
  get_user_college (Some u) = None ->
  filter_by_college query model_class (Some u) = query.
Proof.
  intros Hres. unfold filter_by_college. rewrite Hres.
  destruct (is_admin u); reflexivity.
Qed.

(** C10.  For a signed-in user who is not an administrator and whose
    resolved college is [None], [filter_by_college] hands the query back
    as it got it, whatever the query and the mapped class; so [fa_index]
    and [boxes_list] show that user every row of [first_aid_boxes], of
    every college. *)
Theorem unassigned_user_lists_all_boxes (u : User) :
  is_admin u = false ->
  get_user_college (Some u) = None ->
  (forall (A : Type) (query : Query A) (model_class : Model A),
     filter_by_college query model_class (Some u) = query)
  /\ (forall (w : World) (db : DB),
        raises w 0%nat = None ->
        (serve (boxes_list (Some u)) w db).1
        = Ok (TemplateResponse "first_aid/boxes_list.html"
                (BoxesContext (map_to_list (first_aid_boxes db)) None))
        /\ (serve (fa_index (Some u)) w db).1
           = Ok (TemplateResponse "first_aid/index.html"
                   (BoxesContext (map_to_list (first_aid_boxes db))
                      (Some (length (map_to_list (first_aid_boxes db))))))).
Proof.
  intros Hadmin Hres. split.
  - intros A query model_class.
    apply filter_by_college_unassigned, Hres.
  - intros w db Hr.
    unfold serve, boxes_list, fa_index.
    rewrite (filter_by_college_unassigned _ _ _ Hres).
    unfold query_all, mbind, M_bind, execute. cbn. rewrite Hr. cbn.
    rewrite filter_no_condition. split; reflexivity.
Qed.

(** A doctor without a college sees the boxes of both colleges. *)
Lemma unassigned_user_lists_all_boxes_witness :
  let box1 := {| box_name := "B1"; location := "Lab";
                 box_college_id := Some "Pharmacy";
                 created_by_user_id := 1; last_reviewed_at := None |} in
  let box2 := {| box_name := "B2"; location := "Gym";
                 box_college_id := Some "Medicine";
                 created_by_user_id := 3; last_reviewed_at := None |} in
  let db := {| first_aid_boxes := {[ 1 := box1; 2 := box2 ]};
               first_aid_box_items := ∅;
               drugs := []; warehouse_stock := []; pharmacy_stock := [];
               drug_transactions := [] |} in
  let doctor := {| user_id := 2; is_admin := false;
                   is_doc := true; doctor_college := None;
                   is_college_admin := false; college_admin_college := None;
                   is_hod := false; hod_college := None |} in
  let w := {| raises := fun _ => None;
              get_drug_stock := fun _ => LookupNothing;
              now := 1000; today := 10; strptime := fun _ => None |} in
  (serve (boxes_list (Some doctor)) w db).1
  = Ok (TemplateResponse "first_aid/boxes_list.html"
          (BoxesContext (map_to_list (first_aid_boxes db)) None)).
Proof.
  intros box1 box2 db doctor w.
  destruct (unassigned_user_lists_all_boxes doctor eq_refl eq_refl)
    as [_ Hlist].
  apply (Hlist w db). reflexivity.
Defined.

(** C9, as stated, fails for the public view: it writes nothing, and the
    box keeps the review time it had. *)
Lemma public_view_no_timestamp_counterexample :
  let box := {| box_name := "B1"; location := "Lab";
                box_college_id := Some "Pharmacy";
                created_by_user_id := 1; last_reviewed_at := Some 5 |} in
  let db := {| first_aid_boxes := {[ 1 := box ]};
               first_aid_box_items := ∅;
               drugs := []; warehouse_stock := []; pharmacy_stock := [];
               drug_transactions := [] |} in
  let w := {| raises := fun _ => None;
              get_drug_stock := fun _ => LookupNothing;
              now := 1000; today := 10; strptime := fun _ => None |} in
  let out := serve (box_public_detail 1) w db in
  out.1 = Ok (TemplateResponse "first_aid/box_public.html"
                (PublicBoxContext (1, box) [] 10))
  /\ last_reviewed_at <$> first_aid_boxes (stored out.2) !! 1 = Some (Some 5)
  /\ last_reviewed_at <$> first_aid_boxes (stored out.2) !! 1
     <> Some (Some (now w)).
Proof.
  split; [vm_compute; reflexivity|].
  split; [vm_compute; reflexivity|].
  vm_compute. discriminate.
Qed.

Lemma reviewed_frame (box_id : Z) (box : FirstAidBox) (ts : Z) (db : DB) :
  let db' := reviewed box_id box ts db in
  (exists box', first_aid_boxes db' !! box_id = Some box'
     /\ last_reviewed_at box' = Some ts
     /\ box_name box' = box_name box
     /\ location box' = location box
     /\ box_college_id box' = box_college_id box
     /\ created_by_user_id box' = created_by_user_id box)
  /\ (forall other, other <> box_id ->
        first_aid_boxes db' !! other = first_aid_boxes db !! other)
  /\ first_aid_box_items db' = first_aid_box_items db
  /\ drugs db' = drugs db
  /\ warehouse_stock db' = warehouse_stock db
  /\ pharmacy_stock db' = pharmacy_stock db
  /\ drug_transactions db' = drug_transactions db.
Proof.
  simpl. split.
  - eexists. split; [apply lookup_insert_eq|]. repeat split.
  - split; [|repeat split].
    intros other Hne. apply lookup_insert_ne. congruence.
Qed.

Lemma box_public_detail_reads_only (w : World) (db : DB) (box_id : Z) :
  let out := serve (box_public_detail box_id) w db in
  stored out.2 = db /\ pending out.2 = db.
Proof.
  unfold serve, box_public_detail, query_box, box_items, mbind, M_bind,
    execute, ask, raise.
  cbn. destruct (raises w 0%nat); cbn; [split; reflexivity|].
  destruct (first_aid_boxes db !! box_id); cbn; [|split; reflexivity].
  destruct (raises w 1%nat); cbn; split; reflexivity.
Qed.

Lemma box_detail_writes (w : World) (db : DB) (box_id : Z)
    (msg : option string) (current_user : option User) (box : FirstAidBox) :
  first_aid_boxes db !! box_id = Some box ->
  check_box_college current_user box = Ok tt ->
  raises w 0%nat = None -> raises w 1%nat = None ->
  stored (serve (box_detail box_id msg current_user) w db).2
  = reviewed box_id box (now w) db.
Proof.
  intros Hb Hg H0 H1.
  unfold serve, box_detail, query_box, box_items, mbind, M_bind,
    execute, ask, raise, lift, orm, commit.
  cbn. rewrite H0. cbn. rewrite Hb. cbn. rewrite Hg. cbn. rewrite H1. cbn.
  destruct (raises w 2%nat); reflexivity.
Qed.

Lemma box_detail_effect (w : World) (db : DB) (box_id : Z)
    (msg : option string) (current_user : option User) :
  let out := serve (box_detail box_id msg current_user) w db in
  (stored out.2 = db /\ forall response, out.1 <> Ok response)
  \/ (exists box,
        first_aid_boxes db !! box_id = Some box
        /\ check_box_college current_user box = Ok tt
        /\ stored out.2 = reviewed box_id box (now w) db).
Proof.
  unfold serve, box_detail, query_box, box_items, mbind, M_bind,
    execute, ask, raise, lift, orm, commit.
  cbn.
  destruct (raises w 0%nat) as [t0|] eqn:H0; cbn.
  { left. split; [reflexivity | discriminate]. }
  destruct (first_aid_boxes db !! box_id) as [box|] eqn:Hb; cbn.
  2:{ left. split; [reflexivity | discriminate]. }
  destruct (check_box_college current_user box) as [[]|ex] eqn:Hg; cbn.
  2:{ left. split; [reflexivity | discriminate]. }
  destruct (raises w 1%nat) as [t1|] eqn:H1; cbn.
  { left. split; [reflexivity | discriminate]. }
  right. exists box.
  split; [first [exact Hb | reflexivity]|]. split; [exact Hg|].
  destruct (raises w 2%nat); reflexivity.
Qed.

(** C9, amended.  Only the detail view writes.  [box_public_detail] leaves
    the database as it found it.  [box_detail], once the box is loaded, the
    college check has passed and the commit goes through, stores the
    current time in the box's [last_reviewed_at] and changes nothing
    else: the box's other columns, the other boxes and the other tables
    are as before.  A call of [box_detail] that writes nothing returns no
    page. *)
Theorem detail_view_touches_last_reviewed_only (w : World) (db : DB)
    (box_id : Z) (msg : option string) (current_user : option User) :
  (let out := serve (box_public_detail box_id) w db in
   stored out.2 = db /\ pending out.2 = db)
  /\ (let out := serve (box_detail box_id msg current_user) w db in
      (forall box,
         first_aid_boxes db !! box_id = Some box ->
         check_box_college current_user box = Ok tt ->
         raises w 0%nat = None -> raises w 1%nat = None ->
         stored out.2 = reviewed box_id box (now w) db)
      /\ ((stored out.2 = db /\ forall response, out.1 <> Ok response)
          \/ (exists box,
                first_aid_boxes db !! box_id = Some box
                /\ stored out.2 = reviewed box_id box (now w) db)))
  /\ (forall box,
        let db' := reviewed box_id box (now w) db in
        (exists box', first_aid_boxes db' !! box_id = Some box'
           /\ last_reviewed_at box' = Some (now w)
           /\ box_name box' = box_name box
           /\ location box' = location box
           /\ box_college_id box' = box_college_id box
           /\ created_by_user_id box' = created_by_user_id box)
        /\ (forall other, other <> box_id ->
              first_aid_boxes db' !! other = first_aid_boxes db !! other)
        /\ first_aid_box_items db' = first_aid_box_items db
        /\ drugs db' = drugs db
        /\ warehouse_stock db' = warehouse_stock db
        /\ pharmacy_stock db' = pharmacy_stock db
        /\ drug_transactions db' = drug_transactions db).
Proof.
  split; [apply box_public_detail_reads_only|]. split.
  - split.
    + intros box. apply box_detail_writes.
    + destruct (box_detail_effect w db box_id msg current_user)
        as [Hnone | (box & Hb & _ & Hst)]; [left; exact Hnone|].
      right. exists box. split; assumption.
  - intros box. apply reviewed_frame.
Qed.

Lemma detail_view_touches_last_reviewed_only_witness :
  let box := {| box_name := "B1"; location := "Lab";
                box_college_id := Some "Pharmacy";
                created_by_user_id := 1; last_reviewed_at := Some 5 |} in
  let db := {| first_aid_boxes := {[ 1 := box ]};
               first_aid_box_items := ∅;
               drugs := []; warehouse_stock := []; pharmacy_stock := [];
               drug_transactions := [] |} in
  let doctor := {| user_id := 2; is_admin := false;
                   is_doc := true; doctor_college := Some "Pharmacy";
                   is_college_admin := false; college_admin_college := None;
                   is_hod := false; hod_college := None |} in
  let w := {| raises := fun _ => None;
              get_drug_stock := fun _ => LookupNothing;
              now := 1000; today := 10; strptime := fun _ => None |} in
  stored (serve (box_detail 1 None (Some doctor)) w db).2
  = reviewed 1 box 1000 db.
Proof.
  intros box db doctor w.
  destruct (detail_view_touches_last_reviewed_only w db 1 None (Some doctor))
    as (_ & (Hwrites & _) & _).
  apply (Hwrites box); reflexivity.
Defined.

(** ** Running a handler *)

Ltac run :=
  cbn -[pretty new_item_id String.append select_drug select_stock str
        update_deduct update_restore insert_stock exceeds_stock
        get_user_college check_box_college truthy deduct_transaction
        return_transaction deducted Z.eqb].

Ltac unfold_handler :=
  unfold serve, add_item, delete_item, query_box, query_item, stock_check,
    deduct_stock, restore_stock, try_except, mbind, M_bind, mret, M_ret,
    execute, commit, rollback, orm, ask, lift, print, raise.

(** The database once [add_item] has stored the item and moved the
    stock. *)
Lemma add_item_run (w : World) (db : DB) (box_id : Z) (user : User)
    (current_user : option User) (drug_name_ : string)
    (drug_code_ : option string) (quantity_ : Z) (unit_ : string)
    (expiry_date_ notes_ : option string) (box : FirstAidBox) (did : Z) :
  add_item_admitted w db box_id current_user drug_code_ quantity_ box ->
  (forall n, raises w n = None) ->
  truthy drug_code_ = true ->
  select_drug (str drug_code_) (drugs db) = Some did ->
  let out :=
    serve (add_item box_id user current_user drug_name_ drug_code_ quantity_
             unit_ expiry_date_ notes_) w db in
  let user_college := get_user_college current_user in
  out.1 = Ok (item_added box_id)
  /\ stdout out.2 = ["✓ تم خصم " +:+ pretty quantity_ +:+ " من الرصيد"]
  /\ first_aid_boxes (stored out.2) = first_aid_boxes db
  /\ first_aid_box_items (stored out.2)
     = <[new_item_id db :=
           stored_item w box_id current_user drug_name_ drug_code_ quantity_
             unit_ expiry_date_ notes_]> (first_aid_box_items db)
  /\ drugs (stored out.2) = drugs db
  /\ warehouse_stock (stored out.2)
     = deducted did quantity_ user_college (now w) (warehouse_stock db)
  /\ pharmacy_stock (stored out.2)
     = deducted did quantity_ user_college (now w) (pharmacy_stock db)
  /\ drug_transactions (stored out.2)
     = (drug_transactions db
        ++ [deduct_transaction did (str drug_code_) quantity_ box_id box user]
       )%list.
Proof.
  intros (Hc & Hb & Hg & Hx) Hr Htc Hd. specialize (Hx Htc).
  unfold stored_item, parsed_expiry, deducted, item_added.
  unfold_handler. rewrite Hc. run.
  rewrite Hr. run. rewrite Hb, Hg. run. rewrite Htc, Hx. run.
  destruct (truthy expiry_date_); run;
    repeat (rewrite !Hr; run); rewrite Hd; run;
    repeat (rewrite !Hr; run);
    (destruct (select_stock did (warehouse_stock db)); run;
     repeat (rewrite !Hr; run);
     destruct (select_stock did (pharmacy_stock db)); run;
     repeat (rewrite !Hr; run);
     repeat split).
Qed.

(** ** Stock tables *)

Lemma available_quantity_hd (did : Z) (rows : list StockRow) :
  available_quantity did rows = hd 0 (balances did rows).
Proof.
  unfold available_quantity, select_stock, balances.
  induction rows as [|r rows IH]; simpl; [reflexivity|].
  destruct (stock_drug_id r =? did); simpl; [reflexivity | exact IH].
Qed.

Lemma select_stock_balances (did : Z) (rows : list StockRow) :
  select_stock did rows = None <-> balances did rows = [].
Proof.
  unfold select_stock, balances.
  induction rows as [|r rows IH]; simpl; [tauto|].
  destruct (stock_drug_id r =? did); simpl; [split; discriminate | exact IH].
Qed.

Lemma balances_update_deduct (did qty : Z) (college_ : option string)
    (ts : Z) (rows : list StockRow) :
  balances did (update_deduct did qty college_ ts rows)
  = List.map (fun b => b - qty) (balances did rows).
Proof.
  unfold balances, update_deduct.
  induction rows as [|r rows IH]; simpl; [reflexivity|].
  destruct (stock_drug_id r =? did) eqn:E; simpl; rewrite E; simpl;
    rewrite IH; reflexivity.
Qed.


Lemma balances_insert_stock (did qty : Z) (college_ : option string)
    (rows : list StockRow) :
  balances did (insert_stock did qty college_ rows)
  = (balances did rows ++ [qty])%list.
Proof.
  unfold balances, insert_stock.
  rewrite List.filter_app, List.map_app. simpl.
  rewrite Z.eqb_refl. reflexivity.
Qed.

Lemma balances_deducted (did qty : Z) (college_ : option string) (ts : Z)
    (rows : list StockRow) :
  balances did (deducted did qty college_ ts rows)
  = match balances did rows with
    | [] => [- qty]
    | bs => List.map (fun b => b - qty) bs
    end.
Proof.
  unfold deducted.
  destruct (select_stock did rows) as [r|] eqn:E.
  - rewrite balances_update_deduct.
    destruct (balances did rows) eqn:Eb; [|reflexivity].
    apply select_stock_balances in Eb. congruence.
  - rewrite balances_insert_stock.
    apply select_stock_balances in E. rewrite E. reflexivity.
Qed.

Lemma available_deducted (did qty : Z) (college_ : option string) (ts : Z)
    (rows : list StockRow) :
  available_quantity did (deducted did qty college_ ts rows)
  = available_quantity did rows - qty.
Proof.
  rewrite !available_quantity_hd, balances_deducted.
  destruct (balances did rows); simpl; lia.
Qed.



(** ** Adding an item *)


(** C6.  In a call of [add_item] as in C3, a stock table that holds no row
    for the drug gets a new row whose balance is minus the quantity, the
    signed change itself; the call is not turned back for it and reports
    success. *)
Theorem add_item_seeds_missing_row (w : World) (db : DB) (box_id : Z)
    (user : User) (current_user : option User) (drug_name_ : string)
    (drug_code_ : option string) (quantity_ : Z) (unit_ : string)
    (expiry_date_ notes_ : option string) (box : FirstAidBox) (did : Z) :
  add_item_admitted w db box_id current_user drug_code_ quantity_ box ->
  (forall n, raises w n = None) ->
  truthy drug_code_ = true ->
  select_drug (str drug_code_) (drugs db) = Some did ->
  let out :=
    serve (add_item box_id user current_user drug_name_ drug_code_ quantity_
             unit_ expiry_date_ notes_) w db in
  let db' := stored out.2 in
  let seed := {| stock_drug_id := did;
                 balance_qty := - quantity_;
                 college := get_user_college current_user;
                 last_updated := None |} in
  out.1 = Ok (item_added box_id)
  /\ (select_stock did (warehouse_stock db) = None ->
      warehouse_stock db' = (warehouse_stock db ++ [seed])%list
      /\ available_quantity did (warehouse_stock db') = - quantity_)
  /\ (select_stock did (pharmacy_stock db) = None ->
      pharmacy_stock db' = (pharmacy_stock db ++ [seed])%list
      /\ available_quantity did (pharmacy_stock db') = - quantity_).
Proof.
  intros Hadm Hr Htc Hd out db' seed.
  destruct (add_item_run w db box_id user current_user drug_name_ drug_code_
              quantity_ unit_ expiry_date_ notes_ box did Hadm Hr Htc Hd)
    as (Hresp & _ & _ & _ & _ & Hwh & Hph & _).
  fold out in Hresp, Hwh, Hph. fold db' in Hwh, Hph.
  split; [exact Hresp|].
  split; intros Hnone.
  - rewrite Hwh, available_deducted, available_quantity_hd.
    apply select_stock_balances in Hnone as Hbal. rewrite Hbal.
    unfold deducted. rewrite Hnone. split; [reflexivity | simpl; lia].
  - rewrite Hph, available_deducted, available_quantity_hd.
    apply select_stock_balances in Hnone as Hbal. rewrite Hbal.
    unfold deducted. rewrite Hnone. split; [reflexivity | simpl; lia].
Qed.

(** ** The stock check *)

Lemma exceeds_stock_spec (drug_stock : StockLookup) (quantity_ : Z) :
  (forall available,
     exceeds_stock drug_stock quantity_ = Some available <->
     exists stock_qty,
       drug_stock = LookupRow stock_qty
       /\ available = default 0 stock_qty /\ quantity_ > available)
  /\ (exceeds_stock drug_stock quantity_ = None <->
      drug_stock = LookupRaises \/ drug_stock = LookupNothing
      \/ exists stock_qty,
           drug_stock = LookupRow stock_qty
           /\ quantity_ <= default 0 stock_qty).
Proof.
  unfold exceeds_stock. split; [intros available|].
  - destruct drug_stock as [| |stock_qty].
    + split; [discriminate | intros (? & ? & _); discriminate].
    + split; [discriminate | intros (? & ? & _); discriminate].
    + cbv zeta. destruct (Z.gtb_spec quantity_ (default 0 stock_qty)).
      * split.
        -- intros [= <-]. exists stock_qty. repeat split. lia.
        -- intros (sq & [= <-] & -> & _). reflexivity.
      * split; [discriminate|].
        intros (sq & [= <-] & -> & Hgt). lia.
  - destruct drug_stock as [| |stock_qty].
    + split; auto.
    + split; auto.
    + cbv zeta. destruct (Z.gtb_spec quantity_ (default 0 stock_qty)).
      * split; [discriminate|].
        intros [? | [? | (sq & [= <-] & Hle)]]; try discriminate. lia.
      * split; [|reflexivity]. intros _. right. right. eauto.
Qed.

Lemma add_item_turned_back (w : World) (db : DB) (box_id : Z) (user : User)
    (current_user : option User) (drug_name_ : string)
    (drug_code_ : option string) (quantity_ : Z) (unit_ : string)
    (expiry_date_ notes_ : option string) (box : FirstAidBox)
    (available : Z) :
  truthy (get_user_college current_user) = true ->
  first_aid_boxes db !! box_id = Some box ->
  check_box_college current_user box = Ok tt ->
  raises w 0%nat = None ->
  truthy drug_code_ = true ->
  exceeds_stock (get_drug_stock w (str drug_code_)) quantity_
  = Some available ->
  let out :=
    serve (add_item box_id user current_user drug_name_ drug_code_ quantity_
             unit_ expiry_date_ notes_) w db in
  out.1 = Ok (RedirectResponse
                (add_item_url box_id
                   ("الكمية المطلوبة (" +:+ pretty quantity_
                    +:+ ") تتجاوز المتاح في المخزون (" +:+ pretty available
                    +:+ "). الرجاء اختيار كمية أقل.")) 303)
  /\ stored out.2 = db /\ pending out.2 = db /\ stdout out.2 = [].
Proof.
  intros Hc Hb Hg Hr Htc Hx.
  unfold_handler. rewrite Hc. run.
  rewrite Hr. run. rewrite Hb, Hg. run. rewrite Htc, Hx. run.
  repeat split.
Qed.

(** C4, as stated, fails: with 5 units on record a request for 10 is sent
    back to the form; no item is stored and no stock is moved. *)
Lemma stock_check_blocks_counterexample :
  let out :=
    serve (add_item 1 Scenario.doctor_a (Some Scenario.doctor_a) "Aspirin"
             (Some "D1") 10 "عدد" None None)
      Scenario.five_in_stock Scenario.db0 in
  get_drug_stock Scenario.five_in_stock "D1" = LookupRow (Some 5)
  /\ out.1 = Ok (RedirectResponse
                  (add_item_url 1
                     "الكمية المطلوبة (10) تتجاوز المتاح في المخزون (5). الرجاء اختيار كمية أقل.")
                  303)
  /\ first_aid_box_items (stored out.2) = ∅
  /\ stored out.2 = Scenario.db0.
Proof.
  split; [reflexivity|]. split; [vm_compute; reflexivity|].
  split; vm_compute; reflexivity.
Qed.

(** C4, amended.  The stock check blocks.  When the stock sheet has a
    record for the drug code and the requested quantity exceeds its
    [stock_qty] (zero when the record has none), a call of [add_item] that
    has passed the college checks is sent back to the add-item form with an
    error message: no item is stored, no balance is changed and no
    transaction is recorded.  The check lets the call through only when
    the lookup raises, finds nothing, or the quantity is within the
    recorded stock. *)
Theorem stock_check_turns_request_back (w : World) (db : DB) (box_id : Z)
    (user : User) (current_user : option User) (drug_name_ : string)
    (drug_code_ : option string) (quantity_ : Z) (unit_ : string)
    (expiry_date_ notes_ : option string) (box : FirstAidBox)
    (stock_qty : option Z) :
  truthy (get_user_college current_user) = true ->
  first_aid_boxes db !! box_id = Some box ->
  check_box_college current_user box = Ok tt ->
  raises w 0%nat = None ->
  truthy drug_code_ = true ->
  get_drug_stock w (str drug_code_) = LookupRow stock_qty ->
  quantity_ > default 0 stock_qty ->
  let out :=
    serve (add_item box_id user current_user drug_name_ drug_code_ quantity_
             unit_ expiry_date_ notes_) w db in
  (exists error_msg,
     out.1 = Ok (RedirectResponse (add_item_url box_id error_msg) 303))
  /\ stored out.2 = db
  /\ pending out.2 = db
  /\ (forall drug_stock,
        exceeds_stock drug_stock quantity_ = None <->
        drug_stock = LookupRaises \/ drug_stock = LookupNothing
        \/ exists recorded,
             drug_stock = LookupRow recorded
             /\ quantity_ <= default 0 recorded).
Proof.
  intros Hc Hb Hg Hr Htc Hrow Hgt out.
  assert (Hx : exceeds_stock (get_drug_stock w (str drug_code_)) quantity_
               = Some (default 0 stock_qty)).
  { apply exceeds_stock_spec. exists stock_qty. repeat split; assumption. }
  destruct (add_item_turned_back w db box_id user current_user drug_name_
              drug_code_ quantity_ unit_ expiry_date_ notes_ box _
              Hc Hb Hg Hr Htc Hx) as (Hresp & Hst & Hpe & _).
  fold out in Hresp, Hst, Hpe.
  split; [eexists; exact Hresp|].
  split; [exact Hst|]. split; [exact Hpe|].
  intros drug_stock. apply exceeds_stock_spec.
Qed.

Lemma stock_check_turns_request_back_witness :
  let out :=
    serve (add_item 1 Scenario.doctor_a (Some Scenario.doctor_a) "Aspirin"
             (Some "D1") 10 "عدد" None None)
      Scenario.five_in_stock Scenario.db0 in
  stored out.2 = Scenario.db0.
Proof.
  intros out.
  refine (proj1 (proj2 (stock_check_turns_request_back
            Scenario.five_in_stock Scenario.db0 1 Scenario.doctor_a
            (Some Scenario.doctor_a) "Aspirin" (Some "D1") 10 "عدد" None None
            Scenario.box1 (Some 5) _ _ _ _ _ _ _)));
    try reflexivity.
Defined.


Lemma add_item_seeds_missing_row_witness :
  let out :=
    serve (add_item 1 Scenario.doctor_a (Some Scenario.doctor_a) "Aspirin"
             (Some "D1") 10 "عدد" None None)
      Scenario.calm Scenario.db_empty_stock in
  available_quantity 7 (pharmacy_stock (stored out.2)) = - 10.
Proof.
  intros out.
  assert (Hadm : add_item_admitted Scenario.calm Scenario.db_empty_stock 1
                   (Some Scenario.doctor_a) (Some "D1") 10 Scenario.box1).
  { repeat split. }
  destruct (add_item_seeds_missing_row Scenario.calm Scenario.db_empty_stock
              1 Scenario.doctor_a (Some Scenario.doctor_a) "Aspirin"
              (Some "D1") 10 "عدد" None None Scenario.box1 7 Hadm
              (fun _ => eq_refl) eq_refl eq_refl)
    as (_ & _ & Hph).
  apply Hph. reflexivity.
Defined.

(** ** Best-effort stock movement *)

Ltac rewrite_raises :=
  repeat match goal with
         | H : raises ?w ?n = _ |- context [raises ?w ?n] => rewrite H
         end.

Ltac go := repeat (progress (rewrite_raises; run)).

(** What is known of the storage when statement [k] is the first to
    fail. *)
Ltac storage_facts Hlt :=
  try (pose proof (Hlt 0%nat ltac:(lia)));
  try (pose proof (Hlt 1%nat ltac:(lia)));
  try (pose proof (Hlt 2%nat ltac:(lia)));
  try (pose proof (Hlt 3%nat ltac:(lia)));
  try (pose proof (Hlt 4%nat ltac:(lia)));
  try (pose proof (Hlt 5%nat ltac:(lia)));
  try (pose proof (Hlt 6%nat ltac:(lia)));
  try (pose proof (Hlt 7%nat ltac:(lia)));
  try (pose proof (Hlt 8%nat ltac:(lia))).

Lemma add_item_ledger_skipped (w : World) (db : DB) (box_id : Z)
    (user : User) (current_user : option User) (drug_name_ : string)
    (drug_code_ : option string) (quantity_ : Z) (unit_ : string)
    (expiry_date_ notes_ : option string) (box : FirstAidBox) :
  add_item_admitted w db box_id current_user drug_code_ quantity_ box ->
  (forall n, raises w n = None) ->
  truthy drug_code_ = false
  \/ select_drug (str drug_code_) (drugs db) = None ->
  let out :=
    serve (add_item box_id user current_user drug_name_ drug_code_ quantity_
             unit_ expiry_date_ notes_) w db in
  out.1 = Ok (item_added box_id)
  /\ stored out.2
     = set_items
         (insert (new_item_id db)
            (stored_item w box_id current_user drug_name_ drug_code_
               quantity_ unit_ expiry_date_ notes_)) db
  /\ stdout out.2 = [].
Proof.
  intros (Hc & Hb & Hg & Hx) Hr Hskip.
  unfold stored_item, parsed_expiry, item_added.
  unfold_handler. rewrite Hc. run. rewrite Hr. run. rewrite Hb, Hg. run.
  destruct (truthy drug_code_) eqn:Htc.
  - destruct Hskip as [|Hd]; [discriminate|].
    rewrite (Hx eq_refl). run.
    destruct (truthy expiry_date_); run;
      repeat (rewrite !Hr; run); rewrite Hd; run; repeat split.
  - run. destruct (truthy expiry_date_); run;
      repeat (rewrite !Hr; run); repeat split.
Qed.

Lemma add_item_ledger_fails (w : World) (db : DB) (box_id : Z)
    (user : User) (current_user : option User) (drug_name_ : string)
    (drug_code_ : option string) (quantity_ : Z) (unit_ : string)
    (expiry_date_ notes_ : option string) (box : FirstAidBox) (did : Z)
    (k : nat) (text : string) :
  add_item_admitted w db box_id current_user drug_code_ quantity_ box ->
  truthy drug_code_ = true ->
  select_drug (str drug_code_) (drugs db) = Some did ->
  (3 <= k <= 9)%nat ->
  raises w k = Some text ->
  (forall n, (n < k)%nat -> raises w n = None) ->
  let out :=
    serve (add_item box_id user current_user drug_name_ drug_code_ quantity_
             unit_ expiry_date_ notes_) w db in
  out.1 = Ok (item_added box_id)
  /\ stored out.2
     = set_items
         (insert (new_item_id db)
            (stored_item w box_id current_user drug_name_ drug_code_
               quantity_ unit_ expiry_date_ notes_)) db
  /\ stdout out.2 = ["Warning: Failed to update stock: " +:+ text].
Proof.
  intros (Hc & Hb & Hg & Hx) Htc Hd Hk Hfail Hlt. specialize (Hx Htc).
  unfold stored_item, parsed_expiry, item_added.
  assert (Hcase : (k = 3 \/ k = 4 \/ k = 5 \/ k = 6 \/ k = 7 \/ k = 8
                   \/ k = 9)%nat) by lia.
  destruct Hcase as [-> | [-> | [-> | [-> | [-> | [-> | ->]]]]]];
    storage_facts Hlt;
    unfold_handler; rewrite Hc; run; go; rewrite Hb, Hg; run;
    rewrite Htc, Hx; run;
    (destruct (truthy expiry_date_); run; go; rewrite ?Hd; run; go;
     destruct (select_stock did (warehouse_stock db)); run; go;
     destruct (select_stock did (pharmacy_stock db)); run; go;
     repeat split).
Qed.

(** The database once [delete_item] has deleted the item and returned the
    stock. *)
Lemma delete_item_run (w : World) (db : DB) (box_id item_id : Z)
    (user : User) (current_user : option User) (box : FirstAidBox)
    (item : FirstAidBoxItem) (did : Z) :
  delete_item_admitted db box_id item_id current_user box item ->
  (forall n, raises w n = None) ->
  truthy (item_drug_code item) = true ->
  select_drug (str (item_drug_code item)) (drugs db) = Some did ->
  let out := serve (delete_item box_id item_id user current_user) w db in
  out.1 = Ok (item_deleted box_id)
  /\ stdout out.2 = []
  /\ first_aid_boxes (stored out.2) = first_aid_boxes db
  /\ first_aid_box_items (stored out.2) = delete item_id (first_aid_box_items db)
  /\ drugs (stored out.2) = drugs db
  /\ warehouse_stock (stored out.2)
     = update_restore did (quantity item) (now w) (warehouse_stock db)
  /\ pharmacy_stock (stored out.2)
     = update_restore did (quantity item) (now w) (pharmacy_stock db)
  /\ drug_transactions (stored out.2)
     = (drug_transactions db
        ++ [return_transaction did (str (item_drug_code item)) (quantity item)
              box_id user])%list.
Proof.
  intros (Hb & Hg & Hi & Hbox) Hr Htc Hd.
  unfold item_deleted.
  unfold_handler. run. rewrite Hr. run. rewrite Hb, Hg. run.
  rewrite Hr. run. rewrite Hi. run.
  rewrite Hbox, Z.eqb_refl. run.
  repeat (rewrite !Hr; run). rewrite Htc. run.
  repeat (rewrite !Hr; run). rewrite Hd. run.
  repeat (rewrite !Hr; run). repeat split.
Qed.

Lemma delete_item_ledger_skipped (w : World) (db : DB) (box_id item_id : Z)
    (user : User) (current_user : option User) (box : FirstAidBox)
    (item : FirstAidBoxItem) :
  delete_item_admitted db box_id item_id current_user box item ->
  (forall n, raises w n = None) ->
  truthy (item_drug_code item) = false
  \/ select_drug (str (item_drug_code item)) (drugs db) = None ->
  let out := serve (delete_item box_id item_id user current_user) w db in
  out.1 = Ok (item_deleted box_id)
  /\ stored out.2 = set_items (delete item_id) db
  /\ stdout out.2 = [].
Proof.
  intros (Hb & Hg & Hi & Hbox) Hr Hskip.
  unfold item_deleted.
  unfold_handler. run. rewrite Hr. run. rewrite Hb, Hg. run.
  rewrite Hr. run. rewrite Hi. run.
  rewrite Hbox, Z.eqb_refl. run.
  repeat (rewrite !Hr; run).
  destruct (truthy (item_drug_code item)) eqn:Htc; run.
  - destruct Hskip as [|Hd]; [discriminate|].
    repeat (rewrite !Hr; run). rewrite Hd. run. repeat split.
  - repeat split.
Qed.

Lemma delete_item_ledger_fails (w : World) (db : DB) (box_id item_id : Z)
    (user : User) (current_user : option User) (box : FirstAidBox)
    (item : FirstAidBoxItem) (did : Z) (k : nat) (text : string) :
  delete_item_admitted db box_id item_id current_user box item ->
  truthy (item_drug_code item) = true ->
  select_drug (str (item_drug_code item)) (drugs db) = Some did ->
  (3 <= k <= 7)%nat ->
  raises w k = Some text ->
  (forall n, (n < k)%nat -> raises w n = None) ->
  let out := serve (delete_item box_id item_id user current_user) w db in
  out.1 = Ok (item_deleted box_id)
  /\ stored out.2 = set_items (delete item_id) db
  /\ stdout out.2 = ["Warning: Failed to restore stock on delete: " +:+ text].
Proof.
  intros (Hb & Hg & Hi & Hbox) Htc Hd Hk Hfail Hlt.
  unfold item_deleted.
  assert (Hcase : (k = 3 \/ k = 4 \/ k = 5 \/ k = 6 \/ k = 7)%nat) by lia.
  destruct Hcase as [-> | [-> | [-> | [-> | ->]]]];
    storage_facts Hlt;
    unfold_handler; run; go; rewrite Hb, Hg; run; go; rewrite Hi; run;
    rewrite Hbox, Z.eqb_refl; run; go; rewrite Htc; run; go;
    rewrite ?Hd; run; go; repeat split.
Qed.

(** C5.  The stock movement of [add_item] and of [delete_item] is best
    effort.  Take a call that is let through to the point where the item
    is stored (deleted).  (a) When no drug code is given, or the code is
    not found in [drugs], the call reports success and the database
    differs from the one before in the item alone: no balance is touched,
    no transaction is recorded.  (b) When a statement of the stock
    movement raises, the exception is caught and a warning is printed; the
    call still reports success, the item is stored (deleted), and whatever
    the movement had written before the failure is not committed.  The
    statements of a call are numbered from 0 as they are issued: in
    [add_item] the box query, the commit of the item and its refresh are
    0 to 2 and the stock movement is 3 to 9; in [delete_item] the two
    queries and the commit of the deletion are 0 to 2 and the stock
    movement is 3 to 7. *)
Theorem stock_movement_is_best_effort (w : World) (db : DB) (box_id : Z)
    (user : User) (current_user : option User) :
  (forall drug_name_ drug_code_ quantity_ unit_ expiry_date_ notes_ box,
     add_item_admitted w db box_id current_user drug_code_ quantity_ box ->
     let out :=
       serve (add_item box_id user current_user drug_name_ drug_code_
                quantity_ unit_ expiry_date_ notes_) w db in
     let with_item :=
       set_items
         (insert (new_item_id db)
            (stored_item w box_id current_user drug_name_ drug_code_
               quantity_ unit_ expiry_date_ notes_)) db in
     ((forall n, raises w n = None) ->
      truthy drug_code_ = false
      \/ select_drug (str drug_code_) (drugs db) = None ->
      out.1 = Ok (item_added box_id)
      /\ stored out.2 = with_item /\ stdout out.2 = [])
     /\ (forall did k text,
           truthy drug_code_ = true ->
           select_drug (str drug_code_) (drugs db) = Some did ->
           (3 <= k <= 9)%nat ->
           raises w k = Some text ->
           (forall n, (n < k)%nat -> raises w n = None) ->
           out.1 = Ok (item_added box_id)
           /\ stored out.2 = with_item
           /\ stdout out.2 = ["Warning: Failed to update stock: " +:+ text]))
  /\ (forall item_id box item,
        delete_item_admitted db box_id item_id current_user box item ->
        let out := serve (delete_item box_id item_id user current_user) w db in
        let without_item := set_items (delete item_id) db in
        ((forall n, raises w n = None) ->
         truthy (item_drug_code item) = false
         \/ select_drug (str (item_drug_code item)) (drugs db) = None ->
         out.1 = Ok (item_deleted box_id)
         /\ stored out.2 = without_item /\ stdout out.2 = [])
        /\ (forall did k text,
              truthy (item_drug_code item) = true ->
              select_drug (str (item_drug_code item)) (drugs db) = Some did ->
              (3 <= k <= 7)%nat ->
              raises w k = Some text ->
              (forall n, (n < k)%nat -> raises w n = None) ->
              out.1 = Ok (item_deleted box_id)
              /\ stored out.2 = without_item
              /\ stdout out.2
                 = ["Warning: Failed to restore stock on delete: " +:+ text])).
Proof.
  split.
  - intros drug_name_ drug_code_ quantity_ unit_ expiry_date_ notes_ box Hadm.
    split.
    + intros Hr Hskip. eapply add_item_ledger_skipped; eassumption.
    + intros did k text Htc Hd Hk Hfail Hlt.
      eapply add_item_ledger_fails; eassumption.
  - intros item_id box item Hadm. split.
    + intros Hr Hskip. eapply delete_item_ledger_skipped; eassumption.
    + intros did k text Htc Hd Hk Hfail Hlt.
      eapply delete_item_ledger_fails; eassumption.
Qed.

(** The update of the warehouse balance is refused: the item is stored all
    the same and the balances stay as they were. *)
Lemma stock_movement_is_best_effort_witness :
  let out :=
    serve (add_item 1 Scenario.doctor_a (Some Scenario.doctor_a) "Aspirin"
             (Some "D1") 10 "عدد" None None)
      (Scenario.failing_at 5) Scenario.db0 in
  out.1 = Ok (item_added 1)
  /\ stored out.2
     = set_items
         (insert (new_item_id Scenario.db0)
            (stored_item (Scenario.failing_at 5) 1 (Some Scenario.doctor_a)
               "Aspirin" (Some "D1") 10 "عدد" None None)) Scenario.db0
  /\ stdout out.2
     = ["Warning: Failed to update stock: " +:+ "database is locked"].
Proof.
  intros out.
  assert (Hadm : add_item_admitted (Scenario.failing_at 5) Scenario.db0 1
                   (Some Scenario.doctor_a) (Some "D1") 10 Scenario.box1).
  { repeat split. }
  destruct (stock_movement_is_best_effort (Scenario.failing_at 5)
              Scenario.db0 1 Scenario.doctor_a (Some Scenario.doctor_a))
    as [Hadd _].
  destruct (Hadd "Aspirin" (Some "D1") 10 "عدد" None None Scenario.box1 Hadm)
    as [_ Hfails].
  apply (Hfails 7 5%nat "database is locked"); try reflexivity.
  - split; repeat constructor.
  - intros n Hn. simpl.
    do 5 (destruct n as [|n]; [reflexivity|]).
    exfalso. do 5 apply Nat.succ_lt_mono in Hn. inversion Hn.
Defined.

(** ** Adding an item and deleting it again *)



(** * Further properties *)

(** ** The guard functions compared *)

Lemma same_college_refl a : same_college a a = true.
Proof. apply same_college_spec. reflexivity. Qed.

Lemma same_college_sym a b : same_college a b = same_college b a.
Proof. unfold same_college. apply String.eqb_sym. Qed.

Lemma same_college_trans a b c :
  same_college a b = true -> same_college b c = true -> same_college a c = true.
Proof. rewrite !same_college_spec. congruence. Qed.

Lemma same_college_rewrite_r a b c :
  same_college b c = true -> same_college a b = same_college a c.
Proof.
  intros Hbc. destruct (same_college a b) eqn:Hab.
  - symmetry. eapply same_college_trans; eassumption.
  - destruct (same_college a c) eqn:Hac; [|reflexivity].
    rewrite <- Hab. eapply same_college_trans; [eassumption|].
    rewrite same_college_sym. exact Hbc.
Qed.

Lemma role_access_valid role own c :
  (role_access role own c).1 = (truthy own && same_college (str own) c).
Proof.
  unfold role_access. destruct (truthy own); [|reflexivity].
  destruct (same_college (str own) c); reflexivity.
Qed.

(** The verdict of [validate_college_assignment], as a formula. *)
Lemma validate_valid (u : User) (c : option string) :
  (validate_college_assignment (Some u) c).1
  = truthy c
    && (is_admin u
        || (if is_doc u
            then truthy (doctor_college u)
                 && same_college (str (doctor_college u)) (str c)
            else if is_college_admin u
            then truthy (college_admin_college u)
                 && same_college (str (college_admin_college u)) (str c)
            else is_hod u && truthy (hod_college u)
                 && same_college (str (hod_college u)) (str c))).
Proof.
  unfold validate_college_assignment.
  destruct (truthy c); [|reflexivity]. cbn [negb andb].
  destruct (is_admin u); [reflexivity|]. cbn [orb].
  destruct (is_doc u); [apply role_access_valid|].
  destruct (is_college_admin u); [apply role_access_valid|].
  destruct (is_hod u); [apply role_access_valid|reflexivity].
Qed.

Lemma validate_then_verify (u : User) (c : option string) :
  (validate_college_assignment (Some u) c).1 = true ->
  verify_college_access (Some u) c = true.
Proof.
  rewrite validate_valid. unfold verify_college_access, get_user_college.
  destruct (truthy c); [|discriminate]. cbn [negb andb].
  destruct (is_admin u); [reflexivity|]. cbn [orb].
  destruct (is_doc u).
  { intros [Ht Hs]%andb_prop. rewrite Ht. cbn [andb]. rewrite Ht. exact Hs. }
  cbn [andb]. destruct (is_college_admin u).
  { intros [Ht Hs]%andb_prop. rewrite Ht. cbn [andb]. rewrite Ht. exact Hs. }
  cbn [andb]. destruct (is_hod u); [|discriminate].
  intros [Ht Hs]%andb_prop. cbn [andb] in Ht. rewrite Ht. cbn [andb]. rewrite Ht. exact Hs.
Qed.

Lemma verify_is_validate (u : User) (c : option string) :
  (is_doc u = true -> truthy (doctor_college u) = true) ->
  (is_doc u = false -> is_college_admin u = true ->
   truthy (college_admin_college u) = true) ->
  verify_college_access (Some u) c
  = (validate_college_assignment (Some u) c).1.
Proof.
  intros Hdoc Hca.
  rewrite validate_valid. unfold verify_college_access, get_user_college.
  destruct (truthy c); [|reflexivity]. cbn [negb andb].
  destruct (is_admin u); [reflexivity|]. cbn [orb].
  destruct (is_doc u).
  { rewrite (Hdoc eq_refl). cbn [andb negb]. rewrite (Hdoc eq_refl). reflexivity. }
  cbn [andb]. destruct (is_college_admin u).
  { rewrite (Hca eq_refl eq_refl). cbn [andb negb].
    rewrite (Hca eq_refl eq_refl). reflexivity. }
  cbn [andb]. destruct (is_hod u); [|reflexivity].
  cbn [andb]. destruct (truthy (hod_college u)) eqn:Ht; cbn [negb andb].
  - rewrite Ht. reflexivity.
  - reflexivity.
Qed.

(** X3.  Whoever [validate_college_assignment] accepts for a college,
    [verify_college_access] accepts too.  The two give the same answer for
    every user whose first flagged role, doctor and else college admin,
    has its college set; they can differ only where a flag is set without
    its college, since [verify_college_access] then goes on to the next
    role and [validate_college_assignment] refuses. *)
Theorem verify_and_validate_agree (u : User) (college_ : option string) :
  ((validate_college_assignment (Some u) college_).1 = true ->
   verify_college_access (Some u) college_ = true)
  /\ ((is_doc u = true -> truthy (doctor_college u) = true) ->
      (is_doc u = false -> is_college_admin u = true ->
       truthy (college_admin_college u) = true) ->
      verify_college_access (Some u) college_
      = (validate_college_assignment (Some u) college_).1).
Proof. split; [apply validate_then_verify | apply verify_is_validate]. Qed.

Lemma verify_and_validate_agree_witness :
  verify_college_access (Some Scenario.doctor_a) (Some " college a ") = true.
Proof.
  apply (proj1 (verify_and_validate_agree Scenario.doctor_a
                  (Some " college a "))).
  reflexivity.
Defined.

Lemma validate_respects_normal_form (u : User) (c c' : string) :
  c <> "" -> c' <> "" -> same_college c c' = true ->
  (validate_college_assignment (Some u) (Some c)).1
  = (validate_college_assignment (Some u) (Some c')).1.
Proof.
  intros Hc Hc' Hsame. rewrite !validate_valid.
  assert (Ht : truthy (Some c) = true) by (apply truthy_Some; eauto).
  assert (Ht' : truthy (Some c') = true) by (apply truthy_Some; eauto).
  rewrite Ht, Ht'. cbn [str default].
  rewrite !(same_college_rewrite_r _ c c' Hsame). reflexivity.
Qed.

(** X4.  The guard looks at a college only through its trimmed, lower-case
    form: two non-empty colleges with the same form get the same answer
    from [verify_college_access], the same verdict from
    [validate_college_assignment], and [prevent_cross_college_access]
    passes for the one exactly when it passes for the other. *)
Theorem guard_respects_normal_form (u : User) (c c' : string) :
  c <> "" -> c' <> "" ->
  py_lower (py_strip c) = py_lower (py_strip c') ->
  verify_college_access (Some u) (Some c)
  = verify_college_access (Some u) (Some c')
  /\ (validate_college_assignment (Some u) (Some c)).1
     = (validate_college_assignment (Some u) (Some c')).1
  /\ (prevent_cross_college_access (Some u) (Some c) = Ok tt <->
      prevent_cross_college_access (Some u) (Some c') = Ok tt).
Proof.
  intros Hc Hc' Hnorm. apply same_college_spec in Hnorm as Hsame.
  assert (Ht : truthy (Some c) = true) by (apply truthy_Some; eauto).
  assert (Ht' : truthy (Some c') = true) by (apply truthy_Some; eauto).
  pose proof (validate_respects_normal_form u c c' Hc Hc' Hsame) as Hval.
  split; [|split; [exact Hval|]].
  - unfold verify_college_access. rewrite Ht, Ht'. cbn [negb str default].
    destruct (is_admin u); [reflexivity|].
    destruct (truthy (get_user_college (Some u))); [|reflexivity].
    cbn [negb]. apply same_college_rewrite_r, Hsame.
  - unfold prevent_cross_college_access. rewrite Ht, Ht'. cbn [negb].
    destruct (validate_college_assignment (Some u) (Some c)) as [v m].
    destruct (validate_college_assignment (Some u) (Some c')) as [v' m'].
    simpl in Hval. subst v'. destruct v; simpl; split; congruence.
Qed.

Lemma guard_respects_normal_form_witness :
  verify_college_access (Some Scenario.doctor_a) (Some "College A")
  = verify_college_access (Some Scenario.doctor_a) (Some " college a ").
Proof.
  refine (proj1 (guard_respects_normal_form Scenario.doctor_a "College A"
                   " college a " _ _ _));
    [discriminate | discriminate | reflexivity].
Defined.

Lemma elem_of_accessible (u : User) (c : string) :
  c ∈ get_all_accessible_colleges (Some u) <->
  is_admin u = false /\ c <> ""
  /\ (is_doc u = true /\ doctor_college u = Some c
      \/ is_college_admin u = true /\ college_admin_college u = Some c
      \/ is_hod u = true /\ hod_college u = Some c).
Proof.
  unfold get_all_accessible_colleges.
  destruct (is_admin u).
  { split; [intros H; inversion H | intros [? _]; discriminate]. }
  rewrite elem_of_elements, elem_of_list_to_set.
  destruct (is_doc u), (doctor_college u) as [[|a1 d]|],
           (is_college_admin u), (college_admin_college u) as [[|a2 e]|],
           (is_hod u), (hod_college u) as [[|a3 h]|];
    cbn [andb truthy str default app];
    rewrite ?elem_of_cons, ?elem_of_nil;
    (split;
     [ intros H; split; [reflexivity|];
       repeat destruct H as [H|H]; try contradiction; subst;
       (split; [discriminate|]); auto
     | intros (_ & Hne & H);
       repeat destruct H as [H|H]; destruct H as [? H];
       try discriminate; inversion H; subst; try contradiction; auto ]).
Qed.

Lemma resolved_is_accessible (u : User) (c : string) :
  get_user_college (Some u) = Some c ->
  c ∈ get_all_accessible_colleges (Some u).
Proof.
  intros Hres. apply elem_of_accessible.
  pose proof (get_user_college_truthy _ _ Hres) as Hne.
  unfold get_user_college in Hres.
  destruct (is_admin u); [discriminate|].
  split; [reflexivity|]. split; [exact Hne|].
  destruct (is_doc u), (truthy (doctor_college u)); cbn [andb] in Hres; auto;
  destruct (is_college_admin u), (truthy (college_admin_college u));
    cbn [andb] in Hres; auto;
  destruct (is_hod u), (truthy (hod_college u));
    cbn [andb] in Hres; auto; discriminate.
Qed.

Lemma unresolved_has_no_access (u : User) :
  get_user_college (Some u) = None ->
  get_all_accessible_colleges (Some u) = [].
Proof.
  intros Hres.
  destruct (get_all_accessible_colleges (Some u)) as [|c l] eqn:Hacc;
    [reflexivity|].
  assert (Hin : c ∈ get_all_accessible_colleges (Some u)).
  { rewrite Hacc. left. }
  apply elem_of_accessible in Hin as (Hadm & Hne & Hrole).
  assert (Ht : truthy (Some c) = true) by (apply truthy_Some; eauto).
  unfold get_user_college in Hres. rewrite Hadm in Hres.
  destruct Hrole as [[Hf Hc] | [[Hf Hc] | [Hf Hc]]].
  - rewrite Hf, Hc, Ht in Hres. discriminate.
  - rewrite Hf, Hc, Ht in Hres.
    destruct (is_doc u && truthy (doctor_college u)) eqn:E.
    + destruct (is_doc u); [|discriminate]. cbn [andb] in E.
      apply truthy_str in E. rewrite E in Hres. discriminate.
    + discriminate.
  - rewrite Hf, Hc, Ht in Hres.
    destruct (is_doc u && truthy (doctor_college u)) eqn:E.
    + destruct (is_doc u); [|discriminate]. cbn [andb] in E.
      apply truthy_str in E. rewrite E in Hres. discriminate.
    + destruct (is_college_admin u && truthy (college_admin_college u)) eqn:E'.
      * destruct (is_college_admin u); [|discriminate]. cbn [andb] in E'.
        apply truthy_str in E'. rewrite E' in Hres. discriminate.
      * discriminate.
Qed.

(** X2.  [get_all_accessible_colleges] lists, without repetition, exactly
    the non-empty colleges of the roles whose flag is set, and nothing for
    an administrator or for no user.  The college that [get_user_college]
    resolves is always in the list, and the list is empty when nothing is
    resolved. *)
Theorem accessible_colleges_cover (u : User) :
  let accessible := get_all_accessible_colleges (Some u) in
  NoDup accessible
  /\ (forall c,
        c ∈ accessible <->
        is_admin u = false /\ c <> ""
        /\ (is_doc u = true /\ doctor_college u = Some c
            \/ is_college_admin u = true /\ college_admin_college u = Some c
            \/ is_hod u = true /\ hod_college u = Some c))
  /\ (forall c, get_user_college (Some u) = Some c -> c ∈ accessible)
  /\ (get_user_college (Some u) = None -> accessible = [])
  /\ get_all_accessible_colleges None = [].
Proof.
  split; [|split; [|split; [|split]]].
  - unfold get_all_accessible_colleges.
    destruct (is_admin u); [constructor | apply NoDup_elements].
  - apply elem_of_accessible.
  - apply resolved_is_accessible.
  - apply unresolved_has_no_access.
  - reflexivity.
Qed.

Lemma accessible_colleges_cover_witness :
  "College A" ∈ get_all_accessible_colleges (Some Scenario.doctor_a).
Proof.
  destruct (accessible_colleges_cover Scenario.doctor_a) as (_ & _ & Hres & _).
  apply Hres. reflexivity.
Defined.

(** ** [normalize_college] *)




























(** ** Every outcome of the two writing handlers *)

Ltac run' :=
  cbn -[pretty new_item_id new_box_id String.append select_drug select_stock str
        update_deduct update_restore insert_stock exceeds_stock
        get_user_college check_box_college truthy deduct_transaction
        return_transaction deducted Z.eqb with_movement with_return
        item_added item_deleted add_item_url str_exn stored_item].

Ltac case_step :=
  match goal with
  | |- context [raises ?w ?n] => destruct (raises w n) eqn:?
  | |- context [first_aid_boxes ?db !! ?k] =>
      destruct (first_aid_boxes db !! k) eqn:?
  | |- context [first_aid_box_items ?db !! ?k] =>
      destruct (first_aid_box_items db !! k) eqn:?
  | |- context [check_box_college ?u ?b] =>
      destruct (check_box_college u b) as [[]|?] eqn:?
  | |- context [exceeds_stock ?l ?q] => destruct (exceeds_stock l q) eqn:?
  | |- context [select_drug ?c ?l] => destruct (select_drug c l) eqn:?
  | |- context [select_stock ?d ?l] => destruct (select_stock d l) eqn:?
  | |- context [truthy ?c] => destruct (truthy c) eqn:?
  | |- context [Z.eqb ?a ?b] => destruct (Z.eqb_spec a b)
  end.

Ltac explore := run'; repeat (case_step; run').

Ltac close_outcome_body :=
  split; [eexists; reflexivity|];
  first
    [ left; reflexivity
    | right; left; reflexivity
    | right; right; eexists _, _;
      split; [reflexivity|]; split; [reflexivity|];
      unfold with_movement, with_return, deducted, set_transactions,
        set_pharmacy, set_warehouse, set_items; run';
      repeat match goal with
             | H : select_stock _ _ = _ |- _ => rewrite H
             end;
      reflexivity ].

Ltac close_outcome := simplify_eq; close_outcome_body.

(** X15.  Whatever the caller, the form and the storage do, [add_item]
    raises nothing and answers with a redirect of status 303, and it leaves
    the database in one of three states: as it was, with the new item
    alone, or with the new item and the whole stock movement (both
    balances and the transaction row).  A movement is never stored in
    part. *)
Theorem add_item_outcomes (w : World) (db : DB) (box_id : Z) (user : User)
    (current_user : option User) (drug_name_ : string)
    (drug_code_ : option string) (quantity_ : Z) (unit_ : string)
    (expiry_date_ notes_ : option string) :
  let out :=
    serve (add_item box_id user current_user drug_name_ drug_code_ quantity_
             unit_ expiry_date_ notes_) w db in
  let with_item :=
    set_items
      (insert (new_item_id db)
         (stored_item w box_id current_user drug_name_ drug_code_
            quantity_ unit_ expiry_date_ notes_)) db in
  (exists url, out.1 = Ok (RedirectResponse url 303))
  /\ (stored out.2 = db
      \/ stored out.2 = with_item
      \/ exists did box,
           select_drug (str drug_code_) (drugs db) = Some did
           /\ first_aid_boxes db !! box_id = Some box
           /\ stored out.2
              = with_movement did quantity_ (get_user_college current_user)
                  (now w)
                  (deduct_transaction did (str drug_code_) quantity_ box_id
                     box user) with_item).
Proof.
  unfold_handler. unfold stored_item, parsed_expiry.
  explore; close_outcome.
Qed.

Ltac close_delete_outcome :=
  split;
  [ first [left; reflexivity | right; eexists; reflexivity]
  | first
      [ left; reflexivity
      | right; left; reflexivity
      | right; right; eexists _, _;
        split; [first [eassumption | reflexivity]|];
        split; [first [eassumption | reflexivity]|];
        unfold with_return, set_transactions, set_pharmacy,
          set_warehouse, set_items; run'; reflexivity ] ].

(** X16.  Whatever happens, [delete_item] either answers with the
    redirect to the box or raises an [HTTPException] of status 400 (a 403
    or 404 raised inside is wrapped), and it leaves the database in one of
    three states: as it was, without the item, or without the item and
    with the whole return movement. *)
Theorem delete_item_outcomes (w : World) (db : DB) (box_id item_id : Z)
    (user : User) (current_user : option User) :
  let out := serve (delete_item box_id item_id user current_user) w db in
  let without_item := set_items (delete item_id) db in
  (out.1 = Ok (item_deleted box_id)
   \/ exists detail, out.1 = Raise (HTTPException 400 detail))
  /\ (stored out.2 = db
      \/ stored out.2 = without_item
      \/ exists did item,
           first_aid_box_items db !! item_id = Some item
           /\ select_drug (str (item_drug_code item)) (drugs db) = Some did
           /\ stored out.2
              = with_return did (quantity item) (now w)
                  (return_transaction did (str (item_drug_code item))
                     (quantity item) box_id user) without_item).
Proof.
  unfold_handler. explore; simplify_eq; close_delete_outcome.
Qed.

(** ** Calls that are turned away *)

Lemma unresolved_not_truthy (current_user : option User) :
  get_user_college current_user = None ->
  truthy (get_user_college current_user) = false.
Proof. intros ->. reflexivity. Qed.

(** X12.  A caller for whom [get_user_college] resolves nothing, an
    administrator included, can neither add an item nor create a box:
    [add_item] redirects to the form with the 403 message and
    [boxes_create] raises status 400 carrying it, and in both no statement
    is sent to the database. *)
Theorem no_college_no_write (w : World) (db : DB) (box_id : Z) (user : User)
    (current_user : option User) :
  get_user_college current_user = None ->
  (forall drug_name_ drug_code_ quantity_ unit_ expiry_date_ notes_,
     serve (add_item box_id user current_user drug_name_ drug_code_
              quantity_ unit_ expiry_date_ notes_) w db
     = (Ok (RedirectResponse
              (add_item_url box_id
                 "403: لا يمكن إضافة دواء بدون تخصيص كلية") 303),
        open db))
  /\ (forall box_name_ location_,
        serve (boxes_create user current_user box_name_ location_) w db
        = (Raise (HTTPException 400
                    "403: لا يمكن إنشاء صندوق بدون تخصيص كلية"),
           open db))
  /\ (forall u, is_admin u = true -> get_user_college (Some u) = None).
Proof.
  intros Hres. apply unresolved_not_truthy in Hres.
  split; [|split].
  - intros. unfold_handler. unfold boxes_create, try_except.
    rewrite Hres. reflexivity.
  - intros. unfold serve, boxes_create, try_except, raise, mbind, M_bind, rollback.
    rewrite Hres. reflexivity.
  - intros u Ha. unfold get_user_college. rewrite Ha. reflexivity.
Qed.

Lemma no_college_no_write_witness :
  serve (add_item 1 Cases.admin (Some Cases.admin) "Aspirin" (Some "D1") 10
           "عدد" None None) Scenario.calm Scenario.db0
  = (Ok (RedirectResponse
           (add_item_url 1 "403: لا يمكن إضافة دواء بدون تخصيص كلية") 303),
     open Scenario.db0).
Proof.
  exact (proj1 (no_college_no_write Scenario.calm Scenario.db0 1 Cases.admin
                  (Some Cases.admin) eq_refl)
           "Aspirin" (Some "D1") 10 "عدد" None None).
Defined.



(** X14.  [delete_item] deletes an item only through the box it lies in:
    when the item does not exist or belongs to another box, the call
    raises status 400 with the item-not-found message after two queries
    and changes nothing. *)
Theorem delete_item_needs_item_of_box (w : World) (db : DB)
    (box_id item_id : Z) (user : User) (current_user : option User)
    (box : FirstAidBox) :
  first_aid_boxes db !! box_id = Some box ->
  check_box_college current_user box = Ok tt ->
  raises w 0%nat = None -> raises w 1%nat = None ->
  (forall item, first_aid_box_items db !! item_id = Some item ->
                item_box_id item <> box_id) ->
  serve (delete_item box_id item_id user current_user) w db
  = (Raise (HTTPException 400 "404: العنصر غير موجود"),
     {| pending := db; stored := db; issued := 2; stdout := [] |}).
Proof.
  intros Hb Hg H0 H1 Hother.
  unfold_handler. run'. rewrite H0. run'. rewrite Hb, Hg. run'.
  rewrite H1. run'.
  destruct (first_aid_box_items db !! item_id) as [item|] eqn:Hi; run'.
  - destruct (Z.eqb_spec (item_box_id item) box_id) as [Heq|_]; run'.
    + exfalso. exact (Hother item eq_refl Heq).
    + reflexivity.
  - reflexivity.
Qed.

Lemma delete_item_needs_item_of_box_witness :
  serve (delete_item 1 6 Scenario.doctor_a (Some Scenario.doctor_a))
    Scenario.calm Cases.db1
  = (Raise (HTTPException 400 "404: العنصر غير موجود"),
     {| pending := Cases.db1; stored := Cases.db1; issued := 2;
        stdout := [] |}).
Proof.
  apply (delete_item_needs_item_of_box Scenario.calm Cases.db1 1 6
           Scenario.doctor_a (Some Scenario.doctor_a) Scenario.box1);
    try reflexivity.
  intros item Hitem. vm_compute in Hitem. injection Hitem as <-.
  discriminate.
Defined.

(** ** Listing and opening boxes *)

Lemma sql_eq_true (a b : option string) :
  sql_eq a b = true <-> exists c, a = Some c /\ b = Some c.
Proof.
  destruct a as [a|], b as [b|]; simpl;
    try (split; [discriminate | intros (c & ? & ?); discriminate]).
  rewrite String.eqb_eq. split.
  - intros ->. eauto.
  - intros (c & [= ->] & [= ->]). reflexivity.
Qed.

Lemma boxes_list_scoped (w : World) (db : DB) (u : User) (c : string) :
  get_user_college (Some u) = Some c ->
  raises w 0%nat = None ->
  exists boxes,
    (serve (boxes_list (Some u)) w db).1
    = Ok (TemplateResponse "first_aid/boxes_list.html"
            (BoxesContext boxes None))
    /\ (serve (fa_index (Some u)) w db).1
       = Ok (TemplateResponse "first_aid/index.html"
               (BoxesContext boxes (Some (length boxes))))
    /\ forall box_id box,
         In (box_id, box) boxes <->
         first_aid_boxes db !! box_id = Some box
         /\ box_college_id box = Some c.
Proof.
  intros Hres H0.
  assert (Hadm : is_admin u = false).
  { unfold get_user_college in Hres. destruct (is_admin u); [discriminate | reflexivity]. }
  assert (Ht : truthy (Some c) = true).
  { apply truthy_Some. exists c. split; [reflexivity|]. eapply get_user_college_truthy, Hres. }
  unfold serve, boxes_list, fa_index, filter_by_college.
  rewrite Hadm, Hres, Ht. cbn [negb FirstAidBox_model attr_college_id attr_college app].
  unfold query_all, mbind, M_bind, mret, M_ret, execute. cbn [open issued pending fst snd].
  rewrite H0. cbn.
  eexists. split; [reflexivity|]. split; [reflexivity|].
  intros box_id box. rewrite filter_In, <- list_elem_of_In, elem_of_map_to_list.
  cbn. rewrite andb_true_r, sql_eq_true.
  split.
  - intros [Hb (c' & Hc & [= <-])]. auto.
  - intros [Hb Hc]. split; [exact Hb|]. eauto.
Qed.

(** X6.  For a user with a resolved college, [boxes_list] and [fa_index]
    show exactly the boxes whose [college_id] is that college, character
    for character: no box of another college and no box without college. *)
Theorem boxes_list_shows_own_college_only (w : World) (db : DB) (u : User)
    (c : string) :
  get_user_college (Some u) = Some c ->
  raises w 0%nat = None ->
  exists boxes,
    (serve (boxes_list (Some u)) w db).1
    = Ok (TemplateResponse "first_aid/boxes_list.html"
            (BoxesContext boxes None))
    /\ (serve (fa_index (Some u)) w db).1
       = Ok (TemplateResponse "first_aid/index.html"
               (BoxesContext boxes (Some (length boxes))))
    /\ forall box_id box,
         In (box_id, box) boxes <->
         first_aid_boxes db !! box_id = Some box
         /\ box_college_id box = Some c.
Proof. apply boxes_list_scoped. Qed.

Lemma boxes_list_shows_own_college_only_witness :
  exists boxes,
    (serve (boxes_list (Some Scenario.doctor_a)) Scenario.calm Cases.db1).1
    = Ok (TemplateResponse "first_aid/boxes_list.html"
            (BoxesContext boxes None))
    /\ In (1, Scenario.box1) boxes
    /\ ~ In (2, Scenario.box2) boxes.
Proof.
  destruct (boxes_list_shows_own_college_only Scenario.calm Cases.db1
              Scenario.doctor_a "College A" eq_refl eq_refl)
    as (boxes & Hlist & _ & Hin).
  exists boxes. split; [exact Hlist|]. split.
  - apply Hin. split; reflexivity.
  - intros [_ Hc]%Hin. discriminate.
Defined.

Lemma check_box_college_valid (current_user : option User) (box : FirstAidBox)
    (u : User) :
  current_user = Some u ->
  truthy (box_college_id box) = true ->
  (validate_college_assignment (Some u) (box_college_id box)).1 = true ->
  check_box_college current_user box = Ok tt.
Proof.
  intros -> Ht Hv. unfold check_box_college, prevent_cross_college_access.
  rewrite Ht. cbn [negb].
  destruct (validate_college_assignment _ _) as [v m]. simpl in Hv. subst v.
  reflexivity.
Qed.

(** X7.  For a user whom [validate_college_assignment] accepts for their
    own resolved college, every box that [boxes_list] shows passes the
    college check of the box handlers. *)
Theorem listed_boxes_can_be_opened (w : World) (db : DB) (u : User)
    (c : string) :
  get_user_college (Some u) = Some c ->
  (validate_college_assignment (Some u) (Some c)).1 = true ->
  raises w 0%nat = None ->
  exists boxes,
    (serve (boxes_list (Some u)) w db).1
    = Ok (TemplateResponse "first_aid/boxes_list.html"
            (BoxesContext boxes None))
    /\ forall box_id box,
         In (box_id, box) boxes ->
         first_aid_boxes db !! box_id = Some box
         /\ check_box_college (Some u) box = Ok tt.
Proof.
  intros Hres Hv H0.
  destruct (boxes_list_scoped w db u c Hres H0) as (boxes & Hlist & _ & Hin).
  exists boxes. split; [exact Hlist|].
  intros box_id box [Hb Hc]%Hin. split; [exact Hb|].
  eapply check_box_college_valid; [reflexivity | |].
  - rewrite Hc. apply truthy_Some. exists c. split; [reflexivity|].
    eapply get_user_college_truthy, Hres.
  - rewrite Hc. exact Hv.
Qed.

Lemma listed_boxes_can_be_opened_witness :
  exists boxes,
    (serve (boxes_list (Some Scenario.doctor_a)) Scenario.calm Cases.db1).1
    = Ok (TemplateResponse "first_aid/boxes_list.html"
            (BoxesContext boxes None))
    /\ forall box_id box,
         In (box_id, box) boxes ->
         first_aid_boxes Cases.db1 !! box_id = Some box
         /\ check_box_college (Some Scenario.doctor_a) box = Ok tt.
Proof.
  exact (listed_boxes_can_be_opened Scenario.calm Cases.db1 Scenario.doctor_a
           "College A" eq_refl eq_refl eq_refl).
Defined.

(** X5.  A user flagged as doctor whose doctor college is unset is refused
    by the college check on every box that has a college, with "Doctor has
    no college assigned", and [box_detail] raises 403 for it; this holds
    although [get_user_college] resolves the college of their
    college-admin role for them. *)
Theorem doctor_without_college_is_locked_out (u : User) :
  is_admin u = false -> is_doc u = true ->
  truthy (doctor_college u) = false ->
  (forall box,
     truthy (box_college_id box) = true ->
     check_box_college (Some u) box
     = Raise (HTTPException 403 "Doctor has no college assigned"))
  /\ (forall w db box_id msg box,
        first_aid_boxes db !! box_id = Some box ->
        truthy (box_college_id box) = true ->
        raises w 0%nat = None ->
        serve (box_detail box_id msg (Some u)) w db
        = (Raise (HTTPException 403 "Doctor has no college assigned"),
           tick (open db)))
  /\ (forall c,
        is_college_admin u = true -> college_admin_college u = Some c ->
        c <> "" -> get_user_college (Some u) = Some c).
Proof.
  intros Hadm Hdoc Hnone.
  assert (Hguard : forall box,
            truthy (box_college_id box) = true ->
            check_box_college (Some u) box
            = Raise (HTTPException 403 "Doctor has no college assigned")).
  { intros box Ht. unfold check_box_college, prevent_cross_college_access,
      validate_college_assignment, role_access.
    rewrite Ht, Hadm, Hdoc, Hnone. reflexivity. }
  split; [exact Hguard|]. split.
  - intros w db box_id msg box Hb Ht H0.
    unfold serve, box_detail, query_box, mbind, M_bind, execute, lift.
    cbn. rewrite H0. cbn. rewrite Hb, (Hguard box Ht). reflexivity.
  - intros c Hca Hc Hne. unfold get_user_college.
    rewrite Hadm, Hdoc, Hnone, Hca, Hc. cbn [andb].
    destruct c; [contradiction | reflexivity].
Qed.

Lemma doctor_without_college_is_locked_out_witness :
  get_user_college (Some Cases.doctor_unassigned) = Some "College A"
  /\ check_box_college (Some Cases.doctor_unassigned) Scenario.box1
     = Raise (HTTPException 403 "Doctor has no college assigned").
Proof.
  destruct (doctor_without_college_is_locked_out Cases.doctor_unassigned
              eq_refl eq_refl eq_refl) as (Hguard & _ & Hres).
  split.
  - apply Hres; [reflexivity | reflexivity | discriminate].
  - apply Hguard. reflexivity.
Defined.

(** X8.  A box whose college is unset passes the college check for every
    caller, signed in or not, and [box_detail] shows it; yet [boxes_list]
    never shows it to a user with a resolved college. *)
Theorem box_without_college_is_open_to_all (w : World) (db : DB)
    (box_id : Z) (box : FirstAidBox) :
  first_aid_boxes db !! box_id = Some box ->
  truthy (box_college_id box) = false ->
  (forall current_user, check_box_college current_user box = Ok tt)
  /\ (forall msg current_user,
        raises w 0%nat = None -> raises w 1%nat = None ->
        raises w 2%nat = None ->
        exists items today_,
          (serve (box_detail box_id msg current_user) w db).1
          = Ok (TemplateResponse "first_aid/box_detail.html"
                  (BoxDetailContext
                     (box_id,
                      {| box_name := box_name box; location := location box;
                         box_college_id := box_college_id box;
                         created_by_user_id := created_by_user_id box;
                         last_reviewed_at := Some (now w) |})
                     items today_ msg)))
  /\ (forall u c boxes,
        get_user_college (Some u) = Some c ->
        (serve (boxes_list (Some u)) w db).1
        = Ok (TemplateResponse "first_aid/boxes_list.html"
                (BoxesContext boxes None)) ->
        ~ In (box_id, box) boxes).
Proof.
  intros Hb Hnone.
  assert (Hguard : forall current_user, check_box_college current_user box = Ok tt).
  { intros cu. unfold check_box_college. rewrite Hnone. reflexivity. }
  split; [exact Hguard|]. split.
  - intros msg cu H0 H1 H2.
    unfold serve, box_detail, query_box, box_items, mbind, M_bind, mret, M_ret,
      execute, lift, orm, commit, ask.
    cbn. rewrite H0. cbn. rewrite Hb, Hguard. cbn. rewrite H1. cbn.
    rewrite H2. cbn. eexists _, _. reflexivity.
  - intros u c boxes Hres Hlist Hin.
    destruct (raises w 0%nat) as [text|] eqn:H0.
    + unfold serve, boxes_list, query_all, mbind, M_bind, execute in Hlist.
      cbn in Hlist. rewrite H0 in Hlist. discriminate.
    + destruct (boxes_list_scoped w db u c Hres H0) as (boxes' & Hlist' & _ & Hin').
      rewrite Hlist' in Hlist. injection Hlist as <-.
      apply Hin' in Hin as [_ Hc].
      rewrite Hc in Hnone.
      assert (truthy (Some c) = true); [|congruence].
      apply truthy_Some. exists c. split; [reflexivity|].
      eapply get_user_college_truthy, Hres.
Qed.

Lemma box_without_college_is_open_to_all_witness :
  check_box_college None Cases.legacy_box = Ok tt
  /\ check_box_college (Some Scenario.doctor_b) Cases.legacy_box = Ok tt.
Proof.
  destruct (box_without_college_is_open_to_all Scenario.calm Cases.db1 0
              Cases.legacy_box eq_refl eq_refl) as (Hguard & _).
  split; apply Hguard.
Defined.

Lemma box_public_detail_page (w : World) (db : DB) (box_id : Z) :
  raises w 0%nat = None ->
  (first_aid_boxes db !! box_id = None ->
   (serve (box_public_detail box_id) w db).1 = Raise box_not_found)
  /\ (forall box,
        first_aid_boxes db !! box_id = Some box ->
        raises w 1%nat = None ->
        exists items,
          (serve (box_public_detail box_id) w db).1
          = Ok (TemplateResponse "first_aid/box_public.html"
                  (PublicBoxContext (box_id, box) items (today w)))
          /\ forall item_id item,
               In (item_id, item) items <->
               first_aid_box_items db !! item_id = Some item
               /\ item_box_id item = box_id).
Proof.
  intros H0.
  unfold serve, box_public_detail, query_box, box_items, mbind, M_bind,
    mret, M_ret, execute, ask, raise.
  cbn. rewrite H0. cbn. split.
  - intros ->. reflexivity.
  - intros box -> H1. cbn. rewrite H1. cbn.
    eexists. split; [reflexivity|].
    intros item_id item.
    rewrite filter_In, <- list_elem_of_In, elem_of_map_to_list. cbn.
    rewrite Z.eqb_eq. reflexivity.
Qed.

(** X9.  The public view asks for no user and checks no college: for every
    box that exists it shows the box with exactly the items whose [box_id]
    is that box, and for a key without box it raises status 404. *)
Theorem public_view_shows_any_box (w : World) (db : DB) (box_id : Z) :
  raises w 0%nat = None ->
  (first_aid_boxes db !! box_id = None ->
   (serve (box_public_detail box_id) w db).1 = Raise box_not_found)
  /\ (forall box,
        first_aid_boxes db !! box_id = Some box ->
        raises w 1%nat = None ->
        exists items,
          (serve (box_public_detail box_id) w db).1
          = Ok (TemplateResponse "first_aid/box_public.html"
                  (PublicBoxContext (box_id, box) items (today w)))
          /\ forall item_id item,
               In (item_id, item) items <->
               first_aid_box_items db !! item_id = Some item
               /\ item_box_id item = box_id).
Proof. apply box_public_detail_page. Qed.

Lemma public_view_shows_any_box_witness :
  exists items,
    (serve (box_public_detail 2) Scenario.calm Cases.db1).1
    = Ok (TemplateResponse "first_aid/box_public.html"
            (PublicBoxContext (2, Scenario.box2) items 10))
    /\ In (6, Cases.plaster) items
    /\ ~ In (5, Cases.aspirin) items.
Proof.
  destruct (public_view_shows_any_box Scenario.calm Cases.db1 2 eq_refl)
    as [_ Hpage].
  destruct (Hpage Scenario.box2 eq_refl eq_refl) as (items & Hresp & Hin).
  exists items. split; [exact Hresp|]. split.
  - apply Hin. split; reflexivity.
  - intros [_ Hbox]%Hin. discriminate.
Defined.

(** ** Creating a box *)

Lemma new_box_id_fresh (db : DB) : first_aid_boxes db !! new_box_id db = None.
Proof.
  unfold new_box_id. apply (not_elem_of_dom (D := gset Z)), is_fresh.
Qed.

Lemma new_item_id_fresh (db : DB) :
  first_aid_box_items db !! new_item_id db = None.
Proof.
  unfold new_item_id. apply (not_elem_of_dom (D := gset Z)), is_fresh.
Qed.

Lemma boxes_create_run (w : World) (db : DB) (user : User)
    (current_user : option User) (box_name_ location_ : string) :
  truthy (get_user_college current_user) = true ->
  raises w 0%nat = None -> raises w 1%nat = None ->
  serve (boxes_create user current_user box_name_ location_) w db
  = (Ok (RedirectResponse ("/first-aid/boxes/" +:+ pretty (new_box_id db)) 303),
     let db' :=
       set_boxes
         (insert (new_box_id db)
            (created_box user current_user box_name_ location_)) db in
     {| pending := db'; stored := db'; issued := 2; stdout := [] |}).
Proof.
  intros Ht H0 H1.
  unfold serve, boxes_create, try_except, mbind, M_bind, mret, M_ret,
    orm, commit, execute.
  rewrite Ht. cbn -[pretty String.append fresh get_user_college].
  rewrite H0. cbn -[pretty String.append fresh get_user_college].
  rewrite H1. reflexivity.
Qed.

(** X10.  For a caller with a resolved college and a storage that works,
    [boxes_create] stores one new box under a key that was free, with the
    caller's resolved college, the creator's id and no review time, and
    redirects to it; every other box and every other table is left as it
    was. *)
Theorem boxes_create_adds_one_box (w : World) (db : DB) (user : User)
    (current_user : option User) (box_name_ location_ : string) :
  truthy (get_user_college current_user) = true ->
  raises w 0%nat = None -> raises w 1%nat = None ->
  let out := serve (boxes_create user current_user box_name_ location_) w db in
  let db' := stored out.2 in
  out.1
  = Ok (RedirectResponse ("/first-aid/boxes/" +:+ pretty (new_box_id db)) 303)
  /\ first_aid_boxes db !! new_box_id db = None
  /\ first_aid_boxes db' !! new_box_id db
     = Some (created_box user current_user box_name_ location_)
  /\ (forall box_id box,
        first_aid_boxes db !! box_id = Some box ->
        first_aid_boxes db' !! box_id = Some box)
  /\ (forall box_id,
        box_id <> new_box_id db ->
        first_aid_boxes db' !! box_id = first_aid_boxes db !! box_id)
  /\ first_aid_box_items db' = first_aid_box_items db
  /\ drugs db' = drugs db
  /\ warehouse_stock db' = warehouse_stock db
  /\ pharmacy_stock db' = pharmacy_stock db
  /\ drug_transactions db' = drug_transactions db.
Proof.
  intros Ht H0 H1 out db'. subst db' out.
  rewrite (boxes_create_run w db user current_user box_name_ location_ Ht H0 H1).
  cbn [fst snd stored set_boxes first_aid_boxes first_aid_box_items drugs
       warehouse_stock pharmacy_stock drug_transactions].
  split; [reflexivity|]. split; [apply new_box_id_fresh|].
  split; [apply lookup_insert_eq|].
  split.
  { intros box_id box Hb. rewrite lookup_insert_ne; [exact Hb|].
    intros <-. rewrite new_box_id_fresh in Hb. discriminate. }
  split.
  { intros box_id Hne. apply lookup_insert_ne. congruence. }
  repeat split.
Qed.

Lemma boxes_create_adds_one_box_witness :
  let out :=
    serve (boxes_create Scenario.doctor_a (Some Scenario.doctor_a) "B3" "Gate")
      Scenario.calm Scenario.db0 in
  first_aid_boxes (stored out.2) !! new_box_id Scenario.db0
  = Some (created_box Scenario.doctor_a (Some Scenario.doctor_a) "B3" "Gate")
  /\ first_aid_boxes (stored out.2) !! 1 = Some Scenario.box1.
Proof.
  intros out.
  destruct (boxes_create_adds_one_box Scenario.calm Scenario.db0
              Scenario.doctor_a (Some Scenario.doctor_a) "B3" "Gate"
              eq_refl eq_refl eq_refl) as (_ & _ & Hnew & Hold & _).
  split; [exact Hnew|]. apply Hold. reflexivity.
Defined.

(** X11.  The box that [boxes_create] has stored appears in the creator's
    [boxes_list].  [box_detail] opens it for the creator exactly when
    [validate_college_assignment] accepts the creator for their own
    resolved college, and raises 403 otherwise. *)
Theorem created_box_is_listed_and_opened (w w' : World) (db : DB)
    (user u : User) (box_name_ location_ : string) (c : string) :
  get_user_college (Some u) = Some c ->
  raises w 0%nat = None -> raises w 1%nat = None ->
  raises w' 0%nat = None -> raises w' 1%nat = None -> raises w' 2%nat = None ->
  let db' :=
    stored (serve (boxes_create user (Some u) box_name_ location_) w db).2 in
  let box := created_box user (Some u) box_name_ location_ in
  (exists boxes,
     (serve (boxes_list (Some u)) w' db').1
     = Ok (TemplateResponse "first_aid/boxes_list.html"
             (BoxesContext boxes None))
     /\ In (new_box_id db, box) boxes)
  /\ ((validate_college_assignment (Some u) (Some c)).1 = true ->
      exists items today_ shown,
        (serve (box_detail (new_box_id db) None (Some u)) w' db').1
        = Ok (TemplateResponse "first_aid/box_detail.html"
                (BoxDetailContext (new_box_id db, shown) items today_ None))
        /\ box_name shown = box_name_ /\ box_college_id shown = Some c)
  /\ ((validate_college_assignment (Some u) (Some c)).1 = false ->
      exists detail,
        (serve (box_detail (new_box_id db) None (Some u)) w' db').1
        = Raise (HTTPException 403 detail)).
Proof.
  intros Hres H0 H1 H0' H1' H2' db' box.
  assert (Ht : truthy (get_user_college (Some u)) = true).
  { rewrite Hres. apply truthy_Some. exists c. split; [reflexivity|].
    eapply get_user_college_truthy, Hres. }
  assert (Hdb' : db' = set_boxes (insert (new_box_id db) box) db).
  { subst db' box.
    rewrite (boxes_create_run w db user (Some u) box_name_ location_ Ht H0 H1).
    reflexivity. }
  assert (Hlook : first_aid_boxes db' !! new_box_id db = Some box).
  { rewrite Hdb'. apply lookup_insert_eq. }
  assert (Hcol : box_college_id box = Some c) by exact Hres.
  assert (Htc : truthy (box_college_id box) = true) by (rewrite Hcol, <- Hres; exact Ht).
  split; [|split].
  - destruct (boxes_list_scoped w' db' u c Hres H0') as (boxes & Hlist & _ & Hin).
    exists boxes. split; [exact Hlist|]. apply Hin. auto.
  - intros Hv.
    assert (Hg : check_box_college (Some u) box = Ok tt).
    { eapply check_box_college_valid; [reflexivity | exact Htc |].
      rewrite Hcol. exact Hv. }
    unfold serve, box_detail, query_box, box_items, mbind, M_bind, mret, M_ret,
      execute, lift, orm, commit, ask.
    cbn -[get_user_college new_box_id]. rewrite H0'. cbn -[get_user_college new_box_id].
    rewrite Hlook, Hg. cbn -[get_user_college new_box_id].
    rewrite H1'. cbn -[get_user_college new_box_id]. rewrite H2'.
    cbn -[get_user_college new_box_id].
    eexists _, _, _. split; [reflexivity|]. split; [reflexivity | exact Hres].
  - intros Hv.
    assert (Hg : exists detail, check_box_college (Some u) box = Raise (HTTPException 403 detail)).
    { unfold check_box_college, prevent_cross_college_access.
      rewrite Htc, Hcol. cbn [negb].
      destruct (validate_college_assignment _ _) as [v m]. simpl in Hv. subst v.
      eauto. }
    destruct Hg as [detail Hg]. exists detail.
    unfold serve, box_detail, query_box, mbind, M_bind, execute, lift.
    cbn -[get_user_college new_box_id]. rewrite H0'. cbn -[get_user_college new_box_id].
    rewrite Hlook, Hg. reflexivity.
Qed.

Lemma created_box_is_listed_and_opened_witness :
  let db' :=
    stored (serve (boxes_create Scenario.doctor_a (Some Scenario.doctor_a)
                     "B3" "Gate") Scenario.calm Scenario.db0).2 in
  exists boxes,
    (serve (boxes_list (Some Scenario.doctor_a)) Scenario.calm db').1
    = Ok (TemplateResponse "first_aid/boxes_list.html"
            (BoxesContext boxes None))
    /\ In (new_box_id Scenario.db0,
           created_box Scenario.doctor_a (Some Scenario.doctor_a) "B3" "Gate")
         boxes.
Proof.
  exact (proj1 (created_box_is_listed_and_opened Scenario.calm Scenario.calm
                  Scenario.db0 Scenario.doctor_a Scenario.doctor_a "B3" "Gate"
                  "College A" eq_refl eq_refl eq_refl eq_refl eq_refl
                  eq_refl)).
Defined.

(** ** Items in the views *)

Lemma add_item_item_stored (w : World) (db : DB) (box_id : Z) (user : User)
    (current_user : option User) (drug_name_ : string)
    (drug_code_ : option string) (quantity_ : Z) (unit_ : string)
    (expiry_date_ notes_ : option string) (box : FirstAidBox) :
  add_item_admitted w db box_id current_user drug_code_ quantity_ box ->
  raises w 0%nat = None -> raises w 1%nat = None -> raises w 2%nat = None ->
  let out :=
    serve (add_item box_id user current_user drug_name_ drug_code_ quantity_
             unit_ expiry_date_ notes_) w db in
  out.1 = Ok (item_added box_id)
  /\ first_aid_boxes (stored out.2) = first_aid_boxes db
  /\ first_aid_box_items (stored out.2)
     = <[new_item_id db :=
           stored_item w box_id current_user drug_name_ drug_code_ quantity_
             unit_ expiry_date_ notes_]> (first_aid_box_items db)
  /\ drugs (stored out.2) = drugs db.
Proof.
  intros (Hc & Hb & Hg & Hx) H0 H1 H2.
  unfold stored_item, parsed_expiry.
  unfold_handler. rewrite Hc. run'. rewrite H0. run'. rewrite Hb, Hg. run'.
  destruct (truthy drug_code_) eqn:Htc; run'.
  - rewrite (Hx eq_refl). run'.
    destruct (truthy expiry_date_); run'; rewrite H1; run'; rewrite H2; run';
      repeat (case_step; run'); repeat split.
  - destruct (truthy expiry_date_); run'; rewrite H1; run'; rewrite H2; run';
      repeat split.
Qed.

Lemma delete_item_item_deleted (w : World) (db : DB) (box_id item_id : Z)
    (user : User) (current_user : option User) (box : FirstAidBox)
    (item : FirstAidBoxItem) :
  delete_item_admitted db box_id item_id current_user box item ->
  raises w 0%nat = None -> raises w 1%nat = None -> raises w 2%nat = None ->
  let out := serve (delete_item box_id item_id user current_user) w db in
  out.1 = Ok (item_deleted box_id)
  /\ first_aid_boxes (stored out.2) = first_aid_boxes db
  /\ first_aid_box_items (stored out.2) = delete item_id (first_aid_box_items db)
  /\ drugs (stored out.2) = drugs db.
Proof.
  intros (Hb & Hg & Hi & Hbox) H0 H1 H2.
  unfold_handler. run'. rewrite H0. run'. rewrite Hb, Hg. run'.
  rewrite H1. run'. rewrite Hi. run'. rewrite Hbox, Z.eqb_refl. run'.
  rewrite H2. run'.
  repeat (case_step; run'); repeat split.
Qed.

Lemma box_detail_page (w : World) (db : DB) (box_id : Z)
    (msg : option string) (current_user : option User) (box : FirstAidBox) :
  first_aid_boxes db !! box_id = Some box ->
  check_box_college current_user box = Ok tt ->
  raises w 0%nat = None -> raises w 1%nat = None -> raises w 2%nat = None ->
  exists shown items,
    (serve (box_detail box_id msg current_user) w db).1
    = Ok (TemplateResponse "first_aid/box_detail.html"
            (BoxDetailContext (box_id, shown) items (today w) msg))
    /\ forall item_id item,
         In (item_id, item) items <->
         first_aid_box_items db !! item_id = Some item
         /\ item_box_id item = box_id.
Proof.
  intros Hb Hg H0 H1 H2.
  unfold serve, box_detail, query_box, box_items, mbind, M_bind, mret, M_ret,
    execute, lift, orm, commit, ask.
  cbn. rewrite H0. cbn. rewrite Hb, Hg. cbn. rewrite H1. cbn. rewrite H2. cbn.
  eexists _, _. split; [reflexivity|].
  intros item_id item.
  rewrite filter_In, <- list_elem_of_In, elem_of_map_to_list. cbn.
  rewrite Z.eqb_eq. reflexivity.
Qed.

(** X17.  Once [add_item] has committed and refreshed the item, it answers
    with the success redirect whatever the stock movement does, and the
    item is then shown by the public view of the box, next to the items the
    box already had, and by [box_detail] for every viewer who passes the
    college check. *)
Theorem added_item_is_shown (w w' : World) (db : DB) (box_id : Z)
    (user : User) (current_user viewer : option User) (drug_name_ : string)
    (drug_code_ : option string) (quantity_ : Z) (unit_ : string)
    (expiry_date_ notes_ : option string) (box : FirstAidBox) :
  add_item_admitted w db box_id current_user drug_code_ quantity_ box ->
  raises w 0%nat = None -> raises w 1%nat = None -> raises w 2%nat = None ->
  raises w' 0%nat = None -> raises w' 1%nat = None ->
  let out :=
    serve (add_item box_id user current_user drug_name_ drug_code_ quantity_
             unit_ expiry_date_ notes_) w db in
  let db' := stored out.2 in
  let item :=
    stored_item w box_id current_user drug_name_ drug_code_ quantity_ unit_
      expiry_date_ notes_ in
  out.1 = Ok (item_added box_id)
  /\ (exists items,
        (serve (box_public_detail box_id) w' db').1
        = Ok (TemplateResponse "first_aid/box_public.html"
                (PublicBoxContext (box_id, box) items (today w')))
        /\ In (new_item_id db, item) items
        /\ forall item_id old,
             first_aid_box_items db !! item_id = Some old ->
             item_box_id old = box_id -> In (item_id, old) items)
  /\ (check_box_college viewer box = Ok tt -> raises w' 2%nat = None ->
      exists shown items,
        (serve (box_detail box_id None viewer) w' db').1
        = Ok (TemplateResponse "first_aid/box_detail.html"
                (BoxDetailContext (box_id, shown) items (today w') None))
        /\ In (new_item_id db, item) items).
Proof.
  intros Hadm H0 H1 H2 H0' H1' out db' item.
  destruct (add_item_item_stored w db box_id user current_user drug_name_
              drug_code_ quantity_ unit_ expiry_date_ notes_ box Hadm H0 H1 H2)
    as (Hresp & Hboxes & Hitems & _).
  fold out in Hresp, Hboxes, Hitems. fold db' in Hboxes, Hitems.
  fold item in Hitems.
  destruct Hadm as (_ & Hb & _ & _).
  assert (Hb' : first_aid_boxes db' !! box_id = Some box) by (rewrite Hboxes; exact Hb).
  assert (Hnew : first_aid_box_items db' !! new_item_id db = Some item).
  { rewrite Hitems. apply lookup_insert_eq. }
  split; [exact Hresp|]. split.
  - destruct (box_public_detail_page w' db' box_id H0') as [_ Hpub].
    destruct (Hpub box Hb' H1') as (items & Hpage & Hin).
    exists items. split; [exact Hpage|]. split.
    + apply Hin. split; [exact Hnew | reflexivity].
    + intros item_id old Hold Hbox. apply Hin. split; [|exact Hbox].
      rewrite Hitems, lookup_insert_ne; [exact Hold|].
      intros <-. rewrite new_item_id_fresh in Hold. discriminate.
  - intros Hg H2'.
    destruct (box_detail_page w' db' box_id None viewer box Hb' Hg H0' H1' H2')
      as (shown & items & Hpage & Hin).
    exists shown, items. split; [exact Hpage|].
    apply Hin. split; [exact Hnew | reflexivity].
Qed.

Lemma added_item_is_shown_witness :
  let db' :=
    stored (serve (add_item 1 Scenario.doctor_a (Some Scenario.doctor_a)
                     "Aspirin" (Some "D1") 10 "عدد" None None)
              Scenario.calm Scenario.db0).2 in
  exists items,
    (serve (box_public_detail 1) Scenario.calm db').1
    = Ok (TemplateResponse "first_aid/box_public.html"
            (PublicBoxContext (1, Scenario.box1) items 10))
    /\ In (new_item_id Scenario.db0,
           stored_item Scenario.calm 1 (Some Scenario.doctor_a) "Aspirin"
             (Some "D1") 10 "عدد" None None) items.
Proof.
  intros db'.
  assert (Hadm : add_item_admitted Scenario.calm Scenario.db0 1
                   (Some Scenario.doctor_a) (Some "D1") 10 Scenario.box1).
  { repeat split. }
  destruct (added_item_is_shown Scenario.calm Scenario.calm Scenario.db0 1
              Scenario.doctor_a (Some Scenario.doctor_a) None "Aspirin"
              (Some "D1") 10 "عدد" None None Scenario.box1 Hadm
              eq_refl eq_refl eq_refl eq_refl eq_refl)
    as (_ & (items & Hpage & Hin & _) & _).
  exists items. split; [exact Hpage | exact Hin].
Defined.

(** X18.  Once [delete_item] has committed the deletion, it answers with
    the success redirect whatever the return movement does; the item is
    then gone from the table and from the public view of the box, which
    still shows the other items of the box. *)
Theorem deleted_item_is_gone (w w' : World) (db : DB) (box_id item_id : Z)
    (user : User) (current_user : option User) (box : FirstAidBox)
    (item : FirstAidBoxItem) :
  delete_item_admitted db box_id item_id current_user box item ->
  raises w 0%nat = None -> raises w 1%nat = None -> raises w 2%nat = None ->
  raises w' 0%nat = None -> raises w' 1%nat = None ->
  let out := serve (delete_item box_id item_id user current_user) w db in
  let db' := stored out.2 in
  out.1 = Ok (item_deleted box_id)
  /\ first_aid_box_items db' !! item_id = None
  /\ exists items,
       (serve (box_public_detail box_id) w' db').1
       = Ok (TemplateResponse "first_aid/box_public.html"
               (PublicBoxContext (box_id, box) items (today w')))
       /\ (forall other, ~ In (item_id, other) items)
       /\ forall other_id other,
            other_id <> item_id ->
            first_aid_box_items db !! other_id = Some other ->
            item_box_id other = box_id -> In (other_id, other) items.
Proof.
  intros Hadm H0 H1 H2 H0' H1' out db'.
  destruct (delete_item_item_deleted w db box_id item_id user current_user box
              item Hadm H0 H1 H2) as (Hresp & Hboxes & Hitems & _).
  fold out in Hresp, Hboxes, Hitems. fold db' in Hboxes, Hitems.
  destruct Hadm as (Hb & _ & _ & _).
  assert (Hb' : first_aid_boxes db' !! box_id = Some box) by (rewrite Hboxes; exact Hb).
  split; [exact Hresp|].
  split; [rewrite Hitems; apply lookup_delete_eq|].
  destruct (box_public_detail_page w' db' box_id H0') as [_ Hpub].
  destruct (Hpub box Hb' H1') as (items & Hpage & Hin).
  exists items. split; [exact Hpage|]. split.
  - intros other [Hlook _]%Hin. rewrite Hitems, lookup_delete_eq in Hlook.
    discriminate.
  - intros other_id other Hne Hlook Hbox. apply Hin. split; [|exact Hbox].
    rewrite Hitems, lookup_delete_ne; [exact Hlook | congruence].
Qed.

Lemma deleted_item_is_gone_witness :
  let db' :=
    stored (serve (delete_item 1 5 Scenario.doctor_a (Some Scenario.doctor_a))
              Scenario.calm Cases.db1).2 in
  first_aid_box_items db' !! 5 = None.
Proof.
  intros db'.
  assert (Hadm : delete_item_admitted Cases.db1 1 5 (Some Scenario.doctor_a)
                   Scenario.box1 Cases.aspirin).
  { repeat split. }
  destruct (deleted_item_is_gone Scenario.calm Scenario.calm Cases.db1 1 5
              Scenario.doctor_a (Some Scenario.doctor_a) Scenario.box1
              Cases.aspirin Hadm eq_refl eq_refl eq_refl eq_refl eq_refl)
    as (_ & Hgone & _).
  exact Hgone.
Defined.

(** ** More on the stock tables *)

Lemma deducted_labels (did qty : Z) (college_ : option string) (ts : Z)
    (rows : list StockRow) (r : StockRow) :
  In r (deducted did qty college_ ts rows) ->
  stock_drug_id r = did -> college r = college_.
Proof.
  unfold deducted. destruct (select_stock did rows) eqn:E.
  - unfold update_deduct. rewrite in_map_iff. intros (r0 & Hr & _) Hid.
    destruct (stock_drug_id r0 =? did) eqn:E0.
    + subst r. reflexivity.
    + subst r0. apply Z.eqb_neq in E0. contradiction.
  - unfold insert_stock. rewrite in_app_iff. intros [Hin | [<- | []]] Hid.
    + exfalso. unfold select_stock in E.
      apply (find_none _ _ E) in Hin. apply Z.eqb_neq in Hin. contradiction.
    + reflexivity.
Qed.

Lemma deducted_other_drug (did qty : Z) (college_ : option string) (ts : Z)
    (rows : list StockRow) :
  List.filter (fun r => negb (stock_drug_id r =? did))
    (deducted did qty college_ ts rows)
  = List.filter (fun r => negb (stock_drug_id r =? did)) rows.
Proof.
  unfold deducted. destruct (select_stock did rows).
  - unfold update_deduct.
    induction rows as [|r rows IH]; [reflexivity|].
    cbn [List.map List.filter].
    destruct (stock_drug_id r =? did) eqn:E; cbn [stock_drug_id];
      rewrite E; cbn [negb]; rewrite IH; reflexivity.
  - unfold insert_stock. rewrite List.filter_app. cbn.
    rewrite Z.eqb_refl. cbn. apply app_nil_r.
Qed.

(** X19.  After the stock movement of [add_item], every row of
    [warehouse_stock] and of [pharmacy_stock] held for the drug carries the
    caller's resolved college, whatever college it carried before; the
    rows of all other drugs are as they were. *)
Theorem add_item_relabels_stock_rows (w : World) (db : DB) (box_id : Z)
    (user : User) (current_user : option User) (drug_name_ : string)
    (drug_code_ : option string) (quantity_ : Z) (unit_ : string)
    (expiry_date_ notes_ : option string) (box : FirstAidBox) (did : Z) :
  add_item_admitted w db box_id current_user drug_code_ quantity_ box ->
  (forall n, raises w n = None) ->
  truthy drug_code_ = true ->
  select_drug (str drug_code_) (drugs db) = Some did ->
  let db' :=
    stored (serve (add_item box_id user current_user drug_name_ drug_code_
                     quantity_ unit_ expiry_date_ notes_) w db).2 in
  let other_drugs := List.filter (fun r => negb (stock_drug_id r =? did)) in
  (forall r, In r (warehouse_stock db') -> stock_drug_id r = did ->
             college r = get_user_college current_user)
  /\ (forall r, In r (pharmacy_stock db') -> stock_drug_id r = did ->
                college r = get_user_college current_user)
  /\ other_drugs (warehouse_stock db') = other_drugs (warehouse_stock db)
  /\ other_drugs (pharmacy_stock db') = other_drugs (pharmacy_stock db).
Proof.
  intros Hadm Hr Htc Hd db' other_drugs.
  destruct (add_item_run w db box_id user current_user drug_name_ drug_code_
              quantity_ unit_ expiry_date_ notes_ box did Hadm Hr Htc Hd)
    as (_ & _ & _ & _ & _ & Hwh & Hph & _).
  fold db' in Hwh, Hph. rewrite Hwh, Hph. subst other_drugs.
  split; [intros r; apply deducted_labels|].
  split; [intros r; apply deducted_labels|].
  split; apply deducted_other_drug.
Qed.

(** The pharmacy rows of drug 7 were labelled College B; a doctor of
    College A takes ten units. *)
Lemma add_item_relabels_stock_rows_witness :
  let db' :=
    stored (serve (add_item 1 Scenario.doctor_a (Some Scenario.doctor_a)
                     "Aspirin" (Some "D1") 10 "عدد" None None)
              Scenario.calm Cases.db1).2 in
  List.Forall (fun r => stock_drug_id r = 7 -> college r = Some "College A")
              (pharmacy_stock db').
Proof.
  intros db'. apply List.Forall_forall.
  assert (Hadm : add_item_admitted Scenario.calm Cases.db1 1
                   (Some Scenario.doctor_a) (Some "D1") 10 Scenario.box1).
  { repeat split. }
  destruct (add_item_relabels_stock_rows Scenario.calm Cases.db1 1
              Scenario.doctor_a (Some Scenario.doctor_a) "Aspirin"
              (Some "D1") 10 "عدد" None None Scenario.box1 7 Hadm
              (fun _ => eq_refl) eq_refl eq_refl)
    as (_ & Hpharmacy & _).
  exact Hpharmacy.
Defined.

Lemma update_restore_absent (did qty ts : Z) (rows : list StockRow) :
  select_stock did rows = None -> update_restore did qty ts rows = rows.
Proof.
  unfold select_stock, update_restore.
  induction rows as [|r rows IH]; [reflexivity|].
  cbn [List.find List.map]. destruct (stock_drug_id r =? did); [discriminate|].
  intros H. rewrite (IH H). reflexivity.
Qed.

(** X20.  The return movement of [delete_item] creates no stock row: for
    a table that holds no row for the drug the table is left as it was,
    while the [box_return] transaction is recorded all the same. *)
Theorem delete_item_without_stock_row (w : World) (db : DB)
    (box_id item_id : Z) (user : User) (current_user : option User)
    (box : FirstAidBox) (item : FirstAidBoxItem) (did : Z) :
  delete_item_admitted db box_id item_id current_user box item ->
  (forall n, raises w n = None) ->
  truthy (item_drug_code item) = true ->
  select_drug (str (item_drug_code item)) (drugs db) = Some did ->
  let db' := stored (serve (delete_item box_id item_id user current_user) w db).2 in
  (select_stock did (warehouse_stock db) = None ->
   warehouse_stock db' = warehouse_stock db)
  /\ (select_stock did (pharmacy_stock db) = None ->
      pharmacy_stock db' = pharmacy_stock db)
  /\ drug_transactions db'
     = (drug_transactions db
        ++ [return_transaction did (str (item_drug_code item)) (quantity item)
              box_id user])%list.
Proof.
  intros Hadm Hr Htc Hd db'.
  destruct (delete_item_run w db box_id item_id user current_user box item did
              Hadm Hr Htc Hd) as (_ & _ & _ & _ & _ & Hwh & Hph & Htx).
  fold db' in Hwh, Hph, Htx. rewrite Hwh, Hph, Htx.
  split; [apply update_restore_absent|]. split; [apply update_restore_absent|].
  reflexivity.
Qed.

Lemma delete_item_without_stock_row_witness :
  let db' :=
    stored (serve (delete_item 1 5 Scenario.doctor_a (Some Scenario.doctor_a))
              Scenario.calm Cases.db1).2 in
  warehouse_stock db' = []
  /\ drug_transactions db'
     = [return_transaction 7 "D1" 10 1 Scenario.doctor_a].
Proof.
  intros db'.
  assert (Hadm : delete_item_admitted Cases.db1 1 5 (Some Scenario.doctor_a)
                   Scenario.box1 Cases.aspirin).
  { repeat split. }
  destruct (delete_item_without_stock_row Scenario.calm Cases.db1 1 5
              Scenario.doctor_a (Some Scenario.doctor_a) Scenario.box1
              Cases.aspirin 7 Hadm (fun _ => eq_refl) eq_refl eq_refl)
    as (Hwarehouse & _ & Hlog).
  split; [apply Hwarehouse; reflexivity | exact Hlog].
Defined.

(** X21.  A failure of the [refresh] that follows the commit is reported
    as a failure although the row is stored: [add_item] redirects to the
    form with the error text and [boxes_create] raises status 400, and the
    database holds the new item (the new box). *)
Theorem failure_after_commit_is_reported_but_stored (w : World) (db : DB)
    (user : User) (current_user : option User) (text : string) :
  (forall box_id drug_name_ drug_code_ quantity_ unit_ expiry_date_ notes_ box,
     add_item_admitted w db box_id current_user drug_code_ quantity_ box ->
     raises w 0%nat = None -> raises w 1%nat = None ->
     raises w 2%nat = Some text ->
     let out :=
       serve (add_item box_id user current_user drug_name_ drug_code_
                quantity_ unit_ expiry_date_ notes_) w db in
     out.1 = Ok (RedirectResponse (add_item_url box_id text) 303)
     /\ stored out.2
        = set_items
            (insert (new_item_id db)
               (stored_item w box_id current_user drug_name_ drug_code_
                  quantity_ unit_ expiry_date_ notes_)) db)
  /\ (forall box_name_ location_,
        truthy (get_user_college current_user) = true ->
        raises w 0%nat = None -> raises w 1%nat = Some text ->
        let out :=
          serve (boxes_create user current_user box_name_ location_) w db in
        out.1 = Raise (HTTPException 400 text)
        /\ stored out.2
           = set_boxes
               (insert (new_box_id db)
                  (created_box user current_user box_name_ location_)) db).
Proof.
  split.
  - intros box_id drug_name_ drug_code_ quantity_ unit_ expiry_date_ notes_ box
      (Hc & Hb & Hg & Hx) H0 H1 H2 out. subst out.
    unfold stored_item, parsed_expiry.
    unfold_handler. rewrite Hc. run'. rewrite H0. run'. rewrite Hb, Hg. run'.
    destruct (truthy drug_code_) eqn:Htc; run'.
    + rewrite (Hx eq_refl). run'.
      destruct (truthy expiry_date_); run'; rewrite H1; run'; rewrite H2; run';
        split; reflexivity.
    + destruct (truthy expiry_date_); run'; rewrite H1; run'; rewrite H2; run';
        split; reflexivity.
  - intros box_name_ location_ Ht H0 H1 out. subst out.
    unfold serve, boxes_create, created_box, new_box_id, try_except, mbind,
      M_bind, mret, M_ret, orm, commit, execute, rollback, raise.
    rewrite Ht. cbn -[pretty String.append fresh get_user_college].
    rewrite H0. cbn -[pretty String.append fresh get_user_college].
    rewrite H1. cbn -[pretty String.append fresh get_user_college].
    split; reflexivity.
Qed.

Lemma failure_after_commit_is_reported_but_stored_witness :
  let out :=
    serve (add_item 1 Scenario.doctor_a (Some Scenario.doctor_a) "Aspirin"
             (Some "D1") 10 "عدد" None None)
      (Scenario.failing_at 2) Scenario.db0 in
  out.1 = Ok (RedirectResponse (add_item_url 1 "database is locked") 303)
  /\ stored out.2
     = set_items
         (insert (new_item_id Scenario.db0)
            (stored_item (Scenario.failing_at 2) 1 (Some Scenario.doctor_a)
               "Aspirin" (Some "D1") 10 "عدد" None None)) Scenario.db0.
Proof.
  assert (Hadm : add_item_admitted (Scenario.failing_at 2) Scenario.db0 1
                   (Some Scenario.doctor_a) (Some "D1") 10 Scenario.box1).
  { repeat split. }
  exact (proj1 (failure_after_commit_is_reported_but_stored
                  (Scenario.failing_at 2) Scenario.db0 Scenario.doctor_a
                  (Some Scenario.doctor_a) "database is locked")
           1 "Aspirin" (Some "D1") 10 "عدد" None None Scenario.box1 Hadm
           eq_refl eq_refl eq_refl).
Defined.

(** X22.  Two successive calls of [box_detail] on a box leave the database
    as a single call at the later time does: the box carries the later
    review time and nothing else has changed. *)
Theorem box_detail_twice (w w' : World) (db : DB) (box_id : Z)
    (msg msg' : option string) (current_user current_user' : option User)
    (box : FirstAidBox) :
  first_aid_boxes db !! box_id = Some box ->
  check_box_college current_user box = Ok tt ->
  check_box_college current_user' box = Ok tt ->
  raises w 0%nat = None -> raises w 1%nat = None ->
  raises w' 0%nat = None -> raises w' 1%nat = None ->
  let db1 := stored (serve (box_detail box_id msg current_user) w db).2 in
  let db2 := stored (serve (box_detail box_id msg' current_user') w' db1).2 in
  db2 = reviewed box_id box (now w') db
  /\ db2 = stored (serve (box_detail box_id msg' current_user') w' db).2.
Proof.
  intros Hb Hg Hg' H0 H1 H0' H1' db1 db2.
  assert (E1 : db1 = reviewed box_id box (now w) db)
    by (apply box_detail_writes; assumption).
  set (box1 := {| box_name := box_name box; location := location box;
                  box_college_id := box_college_id box;
                  created_by_user_id := created_by_user_id box;
                  last_reviewed_at := Some (now w) |}).
  assert (Hb1 : first_aid_boxes db1 !! box_id = Some box1).
  { rewrite E1. apply lookup_insert_eq. }
  assert (E2 : db2 = reviewed box_id box1 (now w') db1).
  { apply box_detail_writes; assumption. }
  assert (E3 : db2 = reviewed box_id box (now w') db).
  { rewrite E2, E1. unfold reviewed, set_boxes. cbn.
    rewrite insert_insert_eq. reflexivity. }
  split; [exact E3|]. rewrite E3. symmetry.
  apply box_detail_writes; assumption.
Qed.

Lemma box_detail_twice_witness :
  let db1 :=
    stored (serve (box_detail 1 None (Some Scenario.doctor_a))
              Scenario.five_in_stock Scenario.db0).2 in
  stored (serve (box_detail 1 None (Some Scenario.doctor_a))
            Scenario.calm db1).2
  = reviewed 1 Scenario.box1 1000 Scenario.db0.
Proof.
  exact (proj1 (box_detail_twice Scenario.five_in_stock Scenario.calm
                  Scenario.db0 1 None None (Some Scenario.doctor_a)
                  (Some Scenario.doctor_a) Scenario.box1
                  eq_refl eq_refl eq_refl eq_refl eq_refl eq_refl eq_refl)).
Defined.

(** ** The college of a medicine *)



(** X23.  [verify_medicine_access], when the query goes through, allows a
    medicine exactly when [drugs] has no row for the id, or the row has no
    college, or its college is, character for character, the caller's;
    when the query fails it answers [False].
    [prevent_medicine_cross_access] returns when the answer is [True] and
    raises status 403 otherwise, and writes nothing. *)
Theorem medicine_access_rule (refused : nat -> option string)
    (rows : list Medicine.Row) (medicine_id : Z) (college_ : string) :
  let db := Medicine.start rows in
  let row := List.find (fun r => Medicine.id r =? medicine_id) rows in
  (refused 0%nat = None ->
   ((Medicine.verify_medicine_access refused db medicine_id college_).1 = true
    <-> row = None
        \/ (exists r, row = Some r /\ Medicine.college_id r = None)
        \/ (exists r, row = Some r /\ Medicine.college_id r = Some college_)))
  /\ (refused 0%nat <> None ->
      (Medicine.verify_medicine_access refused db medicine_id college_).1
      = false)
  /\ ((Medicine.verify_medicine_access refused db medicine_id college_).1
      = true ->
      (Medicine.prevent_medicine_cross_access refused db medicine_id
         college_).1 = Ok tt)
  /\ ((Medicine.verify_medicine_access refused db medicine_id college_).1
      = false ->
      exists detail,
        (Medicine.prevent_medicine_cross_access refused db medicine_id
           college_).1 = Raise (HTTPException 403 detail))
  /\ Medicine.committed
       (Medicine.prevent_medicine_cross_access refused db medicine_id
          college_).2 = rows.
Proof.
  intros db row. subst db row.
  unfold Medicine.prevent_medicine_cross_access,
    Medicine.verify_medicine_access, Medicine.select_college, Medicine.start.
  cbn [Medicine.sent Medicine.table].
  destruct (refused 0%nat) as [text|] eqn:H0; cbn [fst snd negb].
  - split; [intros; discriminate|]. split; [reflexivity|].
    split; [discriminate|]. split; [eauto | reflexivity].
  - split.
    { intros _.
      destruct (List.find _ rows) as [r|]; [|cbn; split; auto].
      destruct (Medicine.college_id r) as [c|] eqn:Hc; cbn.
      - rewrite String.eqb_eq. split.
        + intros ->. right. right. eauto.
        + intros [? | [(r' & [= <-] & ?) | (r' & [= <-] & ?)]]; congruence.
      - split; [|reflexivity]. intros _. right. left. eauto. }
    split; [intros []; reflexivity|].
    destruct (match List.find _ rows with Some r => Medicine.college_id r | None => None end)
      as [c|]; cbn [fst snd negb].
    + destruct (String.eqb c college_); cbn [fst snd negb];
        (split; [intros; try reflexivity; discriminate|]);
        (split; [intros; try discriminate; eauto | reflexivity]).
    + split; [reflexivity|]. split; [discriminate | reflexivity].
Qed.

(** A medicine id without row is open to every college. *)
Lemma medicine_access_rule_witness :
  (Medicine.verify_medicine_access (fun _ => None)
     (Medicine.start Cases.medicines) 99 "College B").1 = true
  /\ (Medicine.verify_medicine_access (fun _ => None)
        (Medicine.start Cases.medicines) 7 "College B").1 <> true.
Proof.
  destruct (medicine_access_rule (fun _ => None) Cases.medicines 99
              "College B") as (Hrule & _).
  destruct (medicine_access_rule (fun _ => None) Cases.medicines 7
              "College B") as (Hrule' & _).
  split.
  - apply (Hrule eq_refl). left. reflexivity.
  - intros Hyes. apply (Hrule' eq_refl) in Hyes.
    destruct Hyes as [Hrow | [(r & Hrow & Hc) | (r & Hrow & Hc)]];
      vm_compute in Hrow; try discriminate;
      injection Hrow as <-; discriminate.
Defined.




